(** * idaes.commands.extensions: command-line management of binary extensions

    A shallow embedding of [idaes/commands/extensions.py].  The commands are
    effectful: they print to standard output, open and write files, and call
    the collaborators of [idaes.commands.util.download_bin].  Every command is
    embedded as a computation in a small trace-and-exception monad [Py]; the
    configuration tables of [idaes.config] and the collaborators are taken as
    records of parameters, since their code lives in other modules. *)

From Stdlib Require Import String Ascii List Bool Arith ZArith Lia.
From Stdlib Require Import Orders Sorting.Mergesort.
From ExtLib Require Import Structures.Monad Structures.MonadExc.
Import ListNotations.
Import MonadNotation.
Local Open Scope list_scope.
Local Open Scope string_scope.
Local Open Scope monad_scope.

(** ** Python runtime: exceptions, observable events, the [Py] monad *)

(** The exceptions the module can meet.  [UnsupportedPlatformError] carries
    its message, because [get_extensions] prints it. *)
Inductive exn : Type :=
| UnsupportedPlatformError (msg : string)
| FileNotFoundError (path : string)
| UnboundLocalError (name : string)
| ValueError
| OtherError (msg : string).

Inductive outcome (A : Type) : Type :=
| Returns (a : A)
| Raises (e : exn).
Arguments Returns {A} a.
Arguments Raises {A} e.

(** Arguments of [download_binaries], in the order of the call site. *)
Record download_args : Type := mk_download_args {
  da_release : option string;
  da_url : option string;
  da_insecure : bool;
  da_cacert : option string;
  da_verbose : bool;
  da_distro : string;
  da_nochecksum : bool;
  da_library_only : bool;
  da_no_download : bool;
  da_extras_only : bool;
  da_extra : list string;
  da_alt_path : option string
}.

(** What a command does to the outside world, in program order.  [Stdout t]
    is one [click.echo(t)] or [print(t)]: the text [t] followed by a
    newline on standard output. *)
Inductive event : Type :=
| Stdout (text : string)
| FileOpen (path : string) (mode : string)
| FileWrite (path : string) (data : string)
| HashFile (path : string)
| DownloadBinaries (args : download_args)
| GetFileDownloader (insecure : bool) (cacert : option string)
| GetArchAndPlatform (distro : string)
| GetReleasePlatform (platform : string).

Definition trace : Type := list event.

(** A computation yields the events it performed and either a value or the
    exception that ended it.  Events performed before an exception stay. *)
Definition Py (A : Type) : Type := (trace * outcome A)%type.

Definition Py_ret {A} (a : A) : Py A := ([], Returns a).

Definition Py_bind {A B} (m : Py A) (k : A -> Py B) : Py B :=
  match m with
  | (t, Returns a) => ((t ++ fst (k a))%list, snd (k a))
  | (t, Raises e) => (t, Raises e)
  end.

Definition Py_raise {A} (e : exn) : Py A := ([], Raises e).

Definition Py_catch {A} (m : Py A) (h : exn -> Py A) : Py A :=
  match m with
  | (t, Returns a) => (t, Returns a)
  | (t, Raises e) => ((t ++ fst (h e))%list, snd (h e))
  end.

#[global] Instance Monad_Py : Monad Py :=
  {| ret := @Py_ret; bind := @Py_bind |}.

#[global] Instance Exc_Py : MonadExc exn Py :=
  {| raise := @Py_raise; catch := @Py_catch |}.

Definition events {A} (m : Py A) : trace := fst m.
Definition result {A} (m : Py A) : outcome A := snd m.

(** One observable action. *)
Definition emit (e : event) : Py unit := ([e], Returns tt).

(** A call of an external collaborator: the call is recorded, then the
    collaborator's answer is returned or its exception raised. *)
Definition call {A} (e : event) (answer : outcome A) : Py A := ([e], answer).

(** [click.echo(text)] and [print(text)]. *)
Definition echo (text : string) : Py unit := emit (Stdout text).
Definition print (text : string) : Py unit := emit (Stdout text).

(** [for x in xs: body(x)]. *)
Fixpoint for_each {X} (xs : list X) (body : X -> Py unit) : Py unit :=
  match xs with
  | [] => ret tt
  | x :: rest => body x ;; for_each rest body
  end.

(** Reading a local variable that may not have been assigned yet. *)
Definition load_local {X} (name : string) (v : option X) : Py X :=
  match v with
  | Some x => ret x
  | None => raise (UnboundLocalError name)
  end.

(** [try: x = first; rest(x)  except ...: handler].  The handler sees the
    local [x] only if the assignment was reached before the exception. *)
Definition try_binding {X A} (first : Py X) (rest : X -> Py A)
    (handler : option X -> exn -> Py A) : Py A :=
  match first with
  | (t, Raises e) =>
      ((t ++ fst (handler None e))%list, snd (handler None e))
  | (t, Returns x) =>
      let m := Py_catch (rest x) (handler (Some x)) in
      ((t ++ fst m)%list, snd m)
  end.

(** Projections of a trace. *)
Definition stdout_of (t : trace) : list string :=
  flat_map (fun e => match e with Stdout s => [s] | _ => [] end) t.

Definition writes_to (path : string) (t : trace) : list string :=
  flat_map (fun e => match e with
                     | FileWrite p d => if p =? path then [d] else []
                     | _ => []
                     end) t.

Definition file_contents (path : string) (t : trace) : string :=
  String.concat "" (writes_to path t).

Definition is_download (e : event) : bool :=
  match e with DownloadBinaries _ => true | _ => false end.

Definition downloads_of (t : trace) : list download_args :=
  flat_map (fun e => match e with DownloadBinaries a => [a] | _ => [] end) t.

(** ** Python string and path operations used by the module

    Text is modelled as [string], one character per code point, for the
    code points below 256. *)

Definition nl : string := String (ascii_of_nat 10) "".
Definition cr_char : ascii := ascii_of_nat 13.
Definition nl_char : ascii := ascii_of_nat 10.

(** ["c" * n]. *)
Fixpoint str_repeat (c : string) (n : nat) : string :=
  match n with
  | O => ""
  | S n' => c ++ str_repeat c n'
  end.

(** [str.isspace] on one character, the white space [str.strip] removes:
    tab, line feed, vertical tab, form feed, carriage return, the
    separators 28..31, the space, the next-line control U+0085 and the
    no-break space U+00A0. *)
Definition is_space (c : ascii) : bool :=
  let n := nat_of_ascii c in
  (((9 <=? n) && (n <=? 13)) || ((28 <=? n) && (n <=? 32))
   || (n =? 133) || (n =? 160))%nat.

Fixpoint lstrip (s : string) : string :=
  match s with
  | "" => ""
  | String c r => if is_space c then lstrip r else s
  end.

Fixpoint rstrip (s : string) : string :=
  match s with
  | "" => ""
  | String c r =>
      match rstrip r with
      | "" => if is_space c then "" else String c ""
      | r' => String c r'
      end
  end.

(** [s.strip()]. *)
Definition strip (s : string) : string := rstrip (lstrip s).

(** The lines of a text file opened in text mode (universal newlines: a
    carriage return, a line feed or the pair end a line and are read as one
    line feed); each line keeps its terminator. *)
Fixpoint readlines (s : string) : list string :=
  match s with
  | "" => []
  | String c r =>
      if Ascii.eqb c nl_char then nl :: readlines r
      else if Ascii.eqb c cr_char then
        match r with
        | String c' r' =>
            if Ascii.eqb c' nl_char then nl :: readlines r'
            else nl :: readlines r
        | "" => [nl]
        end
      else
        match readlines r with
        | [] => [String c ""]
        | l :: ls => String c l :: ls
        end
  end.

(** [f.readline()] on a freshly opened file: the first line, or the empty
    string at end of file. *)
Definition readline (s : string) : string :=
  match readlines s with
  | [] => ""
  | l :: _ => l
  end.

(** [sep.join(xs)]. *)
Definition join (sep : string) (xs : list string) : string :=
  String.concat sep xs.

(** [format(s, "<n")], the default alignment of a string in a field of
    width [n], and [format(s, ">n")]. *)
Definition ljust (n : nat) (s : string) : string :=
  s ++ str_repeat " " (n - String.length s).

Definition rjust (n : nat) (s : string) : string :=
  str_repeat " " (n - String.length s) ++ s.

(** [sorted(xs)] on strings: ascending by code point. *)
Module StringOrder <: TotalLeBool.
Definition t := string.
Definition leb := String.leb.
Theorem leb_total : forall a1 a2, leb a1 a2 = true \/ leb a2 a1 = true.
Proof. exact String.leb_total. Qed.
End StringOrder.

Module StringSort := Sort StringOrder.

Definition sorted (xs : list string) : list string := StringSort.sort xs.

(** [max(len(x) for x in xs)]; the built-in raises [ValueError] on an empty
    sequence. *)
Definition max_len (xs : list string) : Py nat :=
  match xs with
  | [] => raise ValueError
  | x :: rest =>
      ret (fold_left (fun m y => Nat.max m (String.length y)) rest
                     (String.length x))
  end.

Definition last_char (s : string) : option ascii :=
  match String.length s with
  | O => None
  | S n => String.get n s
  end.

Definition starts_with_sep (s : string) : bool :=
  match s with
  | String c _ => Ascii.eqb c "/"
  | "" => false
  end.

Definition ends_with_sep (s : string) : bool :=
  match last_char s with
  | Some c => Ascii.eqb c "/"
  | None => false
  end.

(** [os.path.join(a, b)] of [posixpath]: an absolute [b] replaces [a]; an
    empty [a] or one that ends in the separator takes [b] directly;
    otherwise the separator is put between them. *)
Definition os_path_join (a b : string) : string :=
  if starts_with_sep b then b
  else if (String.length a =? 0)%nat || ends_with_sep a then a ++ b
  else a ++ "/" ++ b.


(** ** Configuration and collaborators *)

(** The tables and functions the module imports from [idaes.config] and the
    package-level [idaes.bin_directory].  Dictionaries are association lists
    in insertion order, the order in which Python iterates them. *)
Record Config : Type := mk_config {
  base_platforms : list string;
  binary_distro_map : list (string * string);
  binary_arch_map : list (string * string);
  canonical_arch : string -> string;
  canonical_distro : string -> string;
  default_binary_release : option string;
  extra_binaries : list (string * list string);
  idaes_bin_directory : string
}.

(** The functions of [idaes.commands.util.download_bin], [platform.machine]
    and the file system, as answers to the calls the module makes. *)
Record Collaborators : Type := mk_collaborators {
  FileDownloader : Type;
  ArchBits : Type;
  _get_file_downloader :
    bool -> option string -> outcome (FileDownloader * ArchBits);
  _get_arch_and_platform :
    FileDownloader -> string -> outcome (ArchBits * string);
  _get_release_platform : string -> outcome string;
  download_binaries : download_args -> outcome (list (string * string));
  hash_file_sha256 : string -> outcome string;
  open_read : string -> outcome string;
  open_write : string -> outcome unit;
  machine : string
}.

(** Options of the [get-extensions] command, in the order of the
    function's parameters. *)
Record get_extensions_args : Type := mk_get_extensions_args {
  release : option string;
  url : option string;
  insecure : bool;
  cacert : option string;
  verbose : bool;
  distro : string;
  nochecksum : bool;
  library_only : bool;
  no_download : bool;
  info : bool;
  extras_only : bool;
  extra : list string;
  to : option string
}.

Definition is_some {A} (o : option A) : bool :=
  match o with Some _ => true | None => false end.

(** [x in xs] on strings. *)
Definition str_in (x : string) (xs : list string) : bool :=
  existsb (String.eqb x) xs.

(** [rmap[v].append(k)] on a [defaultdict(list)]. *)
Fixpoint rmap_append (rmap : list (string * list string)) (v k : string)
  : list (string * list string) :=
  match rmap with
  | [] => [(v, [k])]
  | (v', ks) :: rest =>
      if v' =? v then (v', (ks ++ [k])%list) :: rest
      else (v', ks) :: rmap_append rest v k
  end.

(** [rmap[name]] for a key of [rmap]. *)
Fixpoint rmap_get (rmap : list (string * list string)) (name : string)
  : list string :=
  match rmap with
  | [] => []
  | (v, ks) :: rest => if v =? name then ks else rmap_get rest name
  end.

(** ** The commands *)

Section Commands.

Context (cfg : Config) (ext : Collaborators).

Definition print_header (title : string) (width : nat) : Py unit :=
  echo (str_repeat "-" width) ;;
  echo ("IDAES Extensions " ++ title) ;;
  echo (str_repeat "=" width).

Definition print_footer (width : nat) : Py unit :=
  echo "" ;;
  echo (str_repeat "=" width).

(** [with open(v, "r") as f: f.readline().strip()], with the fallback of
    the [except FileNotFoundError] clause. *)
Definition read_version (v : string) : Py string :=
  catch
    (f <- call (FileOpen v "r") (open_read ext v) ;;
     ret (strip (readline f)))
    (fun e => match e with
              | FileNotFoundError _ => ret "no version file found"
              | _ => raise e
              end).

Definition print_extensions_version (library_only : bool)
    (bin_directory : option string) : Py Z :=
  print_header "Build Versions" 65 ;;
  let bin_directory :=
    match bin_directory with
    | None => cfg.(idaes_bin_directory)
    | Some d => d
    end in
  (if negb library_only then
     v <- read_version (os_path_join bin_directory "version_solvers.txt") ;;
     echo ("Solvers:  v" ++ v)
   else ret tt) ;;
  v <- read_version (os_path_join bin_directory "version_lib.txt") ;;
  echo ("Library:  v" ++ v) ;;
  print_footer 65 ;;
  ret 0%Z.

Definition print_license : Py Z :=
  print_header "License Information" 65 ;;
  let fpath := os_path_join cfg.(idaes_bin_directory) "license.txt" in
  catch
    (f <- call (FileOpen fpath "r") (open_read ext fpath) ;;
     for_each (readlines f) (fun line => echo (strip line)))
    (fun e => match e with
              | FileNotFoundError _ => echo "no license file found"
              | _ => raise e
              end) ;;
  echo "" ;;
  print_footer 65 ;;
  ret 0%Z.

(** The alias table of one map: canonical names with their aliases. *)
Definition alias_table (data : list (string * string))
  : list (string * list string) :=
  fold_left (fun rmap kv => rmap_append rmap (snd kv) (fst kv)) data [].

Definition print_aliases (name : string) (data : list (string * string))
  : Py unit :=
  print (nl ++ name ++ " aliases:") ;;
  let rmap := alias_table data in
  w <- max_len (map fst rmap) ;;
  for_each (sorted (map fst rmap)) (fun name =>
    let aliases := join ", " (sorted (rmap_get rmap name)) in
    let fname := rjust w name in
    print ("    " ++ fname ++ ": " ++ aliases)).

(** The part of [print_build_info] after the alias tables: the current
    system, its canonical names and whether a build exists for it. *)
Definition print_system_info (platform arch : string) : Py unit :=
  let to_platform := cfg.(canonical_distro) platform in
  let to_mach := cfg.(canonical_arch) arch in
  let to_build := to_platform ++ "-" ++ to_mach in
  let has_build := str_in to_build cfg.(base_platforms) in
  let alias := if to_platform =? platform then "" else " -> " ++ to_platform in
  print ("       Platform: " ++ platform ++ alias) ;;
  let alias := if to_mach =? arch then "" else " -> " ++ to_mach in
  print ("   Architecture: " ++ arch ++ alias) ;;
  if has_build then print ("      Use build: " ++ to_build)
  else print "   !! Unsupported platform/architecture combination".

Definition print_build_info : Py unit :=
  fd_ <- call (GetFileDownloader false None)
              (_get_file_downloader ext false None) ;;
  let fd := fst fd_ in
  print_header "Build Information" 65 ;;
  print (nl ++ "All Builds (Platform-Architecture):") ;;
  for_each cfg.(base_platforms) (fun build => print ("   " ++ build)) ;;
  for_each [("Platform", cfg.(binary_distro_map));
            ("Architecture", cfg.(binary_arch_map))]
           (fun nd => print_aliases (fst nd) (snd nd)) ;;
  print (nl ++ "Current system information:") ;;
  ap <- call (GetArchAndPlatform "auto")
             (_get_arch_and_platform ext fd "auto") ;;
  let platform := snd ap in
  let arch := machine ext in
  print_system_info platform arch ;;
  print_footer 65.

Definition cmd_name : string := "idaes get-extensions".

(** The text of the last [click.echo] of the [except] clause. *)
Definition guidance : string :=
  "Use the command '" ++ cmd_name
  ++ " --distro <os>' to specify an OS distribution" ++ nl
  ++ "Use the command '" ++ cmd_name
  ++ " --info' to see supported platforms".

Definition download_args_of (a : get_extensions_args)
    (release : option string) : download_args :=
  mk_download_args release a.(url) a.(insecure) a.(cacert) a.(verbose)
    a.(distro) a.(nochecksum) a.(library_only) a.(no_download)
    a.(extras_only) a.(extra) a.(to).

(** The [try] statement of [get_extensions].  [None] stands for the
    [return] of the [except] clause, [Some d] for falling through with the
    dictionary [d]. *)
Definition try_download (args : download_args)
  : Py (option (list (string * string))) :=
  catch
    (d <- call (DownloadBinaries args) (download_binaries ext args) ;;
     echo "Done" ;;
     ret (Some d))
    (fun e => match e with
              | UnsupportedPlatformError msg =>
                  echo "" ;;
                  echo msg ;;
                  echo "" ;;
                  echo guidance ;;
                  ret None
              | _ => raise e
              end).

Definition get_extensions (a : get_extensions_args) : Py unit :=
  if a.(info) then print_build_info
  else
    let url := a.(url) in
    let release :=
      if negb (is_some url) && negb (is_some a.(release))
      then cfg.(default_binary_release)
      else a.(release) in
    if is_some url && is_some release then
      echo (nl ++ "* You must provide either a release or url not both.")
    else if is_some url || is_some release then
      echo "Getting files..." ;;
      r <- try_download (download_args_of a release) ;;
      match r with
      | None => ret tt
      | Some d =>
          if a.(no_download) then
            for_each d (fun ki => echo (ljust 14 (fst ki) ++ ": " ++ snd ki))
          else
            print_extensions_version a.(library_only) a.(to) ;;
            ret tt
      end
    else
      echo (nl ++ "* You must provide a download URL for IDAES binary files.").

(** The name of an artifact and of the manifest. *)
Definition artifact_name (pack plat : string) : string :=
  "idaes-" ++ pack ++ "-" ++ plat ++ ".tar.gz".

Definition manifest_name (release : string) : string :=
  "sha256sum_" ++ release ++ ".txt".

Definition under (path : option string) (name : string) : string :=
  match path with
  | Some p => os_path_join p name
  | None => name
  end.

(** The inner function [_write_hash]; [hfile] is the file behind [fp] and
    [path] the enclosing function's argument. *)
Definition _write_hash (path : option string) (hfile : string)
    (pack plat : string) : Py unit :=
  let f := artifact_name pack plat in
  h <- call (HashFile (under path f)) (hash_file_sha256 ext (under path f)) ;;
  emit (FileWrite hfile h) ;;
  emit (FileWrite hfile "  ") ;;
  emit (FileWrite hfile f) ;;
  emit (FileWrite hfile nl).

Definition hash_extensions (release : string) (path : option string)
  : Py unit :=
  let hfile := under path (manifest_name release) in
  call (FileOpen hfile "w") (open_write ext hfile) ;;
  for_each cfg.(base_platforms) (fun plat =>
    for_each ["solvers"; "lib"] (fun pack =>
      _write_hash path hfile pack plat)) ;;
  for_each cfg.(base_platforms) (fun plat =>
    for_each cfg.(extra_binaries) (fun pack_sp =>
      let pack := fst pack_sp in
      let sp := snd pack_sp in
      if negb (str_in plat sp) then ret tt
      else _write_hash path hfile pack plat)).

(** The [except] clause of [bin_platform]; [platform] is the local
    variable as the handler finds it. *)
Definition bin_platform_handler (platform : option string) (e : exn)
  : Py unit :=
  match e with
  | UnsupportedPlatformError _ =>
      p <- load_local "platform" platform ;;
      echo ("No supported binaries found for " ++ p ++ ". "
            ++ "Use the command 'idaes get-extensions --info' "
            ++ "to see supported platforms")
  | _ => raise e
  end.

Definition bin_platform (distro : string) : Py unit :=
  fd_ <- call (GetFileDownloader false None)
              (_get_file_downloader ext false None) ;;
  let fd := fst fd_ in
  try_binding
    (ap <- call (GetArchAndPlatform distro)
                (_get_arch_and_platform ext fd distro) ;;
     ret (snd ap))
    (fun platform =>
       s <- call (GetReleasePlatform platform)
                 (_get_release_platform ext platform) ;;
       echo s)
    bin_platform_handler.

Definition extensions_license : Py unit :=
  print_license ;; ret tt.

Definition extensions_version : Py unit :=
  print_extensions_version false None ;; ret tt.

End Commands.

(** ** A sample installation

    A configuration in the shape of [idaes.config] and collaborators for a
    machine with a few files, used to run the commands on concrete input. *)

Module Sample.

Definition lookup (m : list (string * string)) (k : string) : string :=
  match find (fun kv => fst kv =? k) m with
  | Some kv => snd kv
  | None => k
  end.

Definition distro_map : list (string * string) :=
  [("rhel8", "el8"); ("centos8", "el8"); ("rocky8", "el8");
   ("macos", "darwin"); ("linuxmint20", "ubuntu2004")].

Definition arch_map : list (string * string) :=
  [("x64", "x86_64"); ("amd64", "x86_64"); ("arm64", "aarch64")].

Definition platforms : list string :=
  ["darwin-aarch64"; "el8-x86_64"; "ubuntu2004-x86_64"; "windows-x86_64"].

Definition cfg : Config :=
  mk_config platforms distro_map arch_map
    (lookup arch_map) (lookup distro_map)
    (Some "3.4.2")
    [("petsc", ["el8-x86_64"; "ubuntu2004-x86_64"])]
    "/home/user/.idaes/bin".

(** No metadata files are installed; every artifact hashes to a digest made
    from its path; downloads report one destination. *)
Definition ext : Collaborators :=
  mk_collaborators unit unit
    (fun _ _ => Returns (tt, tt))
    (fun _ d => Returns (tt, if d =? "auto" then "rocky8" else d))
    (fun p => if str_in (lookup distro_map p ++ "-x86_64") platforms
              then Returns (lookup distro_map p ++ "-x86_64")
              else Raises (UnsupportedPlatformError ("unsupported: " ++ p)))
    (fun a => Returns [("lib", "/tmp/idaes-lib-el8-x86_64.tar.gz")])
    (fun p => Returns ("sha:" ++ p))
    (fun p => Raises (FileNotFoundError p))
    (fun _ => Returns tt)
    "amd64".

(** The same machine, where the probe of the platform fails. *)
Definition ext_unknown : Collaborators :=
  mk_collaborators unit unit
    (fun _ _ => Returns (tt, tt))
    (fun _ d => Raises (UnsupportedPlatformError "no platform"))
    (fun p => Raises (UnsupportedPlatformError ("unsupported: " ++ p)))
    (fun a => Raises (UnsupportedPlatformError "Could not find a build"))
    (fun p => Returns ("sha:" ++ p))
    (fun p => Raises (FileNotFoundError p))
    (fun _ => Returns tt)
    "mips".

(** Another installation with the same catalogs: another default release
    and directory, version files in place, and a hash function that fails
    outside the release directory. *)
Definition cfg2 : Config :=
  mk_config platforms [] []
    (fun a => a) (fun d => d)
    None
    [("petsc", ["el8-x86_64"; "ubuntu2004-x86_64"])]
    "/opt/idaes/bin".

Definition ext2 : Collaborators :=
  mk_collaborators unit unit
    (fun _ _ => Returns (tt, tt))
    (fun _ d => Returns (tt, "windows"))
    (fun p => Returns (p ++ "-x86_64"))
    (fun a => Returns [])
    (fun p => if String.prefix "./" p then Returns ("sha:" ++ p)
              else Raises (FileNotFoundError p))
    (fun p => Returns ("3.4.2" ++ nl))
    (fun _ => Returns tt)
    "x86_64".

Definition args (release url : option string) (info : bool)
  : get_extensions_args :=
  mk_get_extensions_args release url false None false "auto" false false
    false info false [] None.

Definition dry_run_args (release : option string) : get_extensions_args :=
  mk_get_extensions_args release None false None false "auto" false false
    true false false [] (Some "/tmp/idaes").

(** A machine without network: the download fails with another error. *)
Definition ext_offline : Collaborators :=
  mk_collaborators unit unit
    (fun _ _ => Returns (tt, tt))
    (fun _ d => Returns (tt, "rocky8"))
    (fun p => Returns "el8-x86_64")
    (fun a => Raises (OtherError "connection refused"))
    (fun p => if p =? "./idaes-lib-el8-x86_64.tar.gz"
              then Raises (FileNotFoundError p)
              else Returns ("sha:" ++ p))
    (fun p => if p =? "/home/user/.idaes/bin/version_lib.txt"
              then Raises (OtherError "permission denied")
              else Raises (FileNotFoundError p))
    (fun _ => Returns tt)
    "x86_64".

(** A machine with both version files installed: the solver version comes
    after a no-break space and is followed by a second line. *)
Definition ext_installed : Collaborators :=
  mk_collaborators unit unit
    (fun _ _ => Returns (tt, tt))
    (fun _ d => Returns (tt, "rocky8"))
    (fun p => Returns "el8-x86_64")
    (fun a => Returns [])
    (fun p => Returns ("sha:" ++ p))
    (fun p => if p =? "/home/user/.idaes/bin/version_solvers.txt"
              then Returns (String (ascii_of_nat 160) " 3.4.2 " ++ nl
                            ++ "build 7" ++ nl)
              else Returns ("3.4.1" ++ nl))
    (fun _ => Returns tt)
    "x86_64".

End Sample.

(** ** Vocabulary of the specification *)

(** The two base package kinds, in the order of the inner loop. *)
Definition base_kinds : list string := ["solvers"; "lib"].

(** The artifacts [(package, platform)] of a manifest in the order the
    specification gives: every platform with the base kinds, then every
    platform again with the extras that declare it. *)
Definition manifest_order (cfg : Config) : list (string * string) :=
  (flat_map (fun plat => map (fun pack => (pack, plat)) base_kinds)
            cfg.(base_platforms)
   ++ flat_map (fun plat =>
                  map (fun pack_sp => (fst pack_sp, plat))
                      (filter (fun pack_sp => str_in plat (snd pack_sp))
                              cfg.(extra_binaries)))
               cfg.(base_platforms))%list.

(** One manifest entry: package, platform and hash. *)
Definition entry : Type := (string * string * string)%type.

Definition entry_artifact (en : entry) : string * string := fst en.

(** The four pieces [_write_hash] hands to [fp.write] for an entry, and the
    line they make. *)
Definition entry_chunks (en : entry) : list string :=
  let '(pack, plat, h) := en in
  [h; "  "; "idaes-" ++ pack ++ "-" ++ plat ++ ".tar.gz"; nl].

Definition entry_line (en : entry) : string :=
  let '(pack, plat, h) := en in
  h ++ "  " ++ "idaes-" ++ pack ++ "-" ++ plat ++ ".tar.gz" ++ nl.

(** The entries written for a list of artifacts: those before the first
    artifact whose hashing fails. *)
Fixpoint written_entries (ext : Collaborators) (path : option string)
    (arts : list (string * string)) : list entry :=
  match arts with
  | [] => []
  | a :: rest =>
      match hash_file_sha256 ext (under path (artifact_name (fst a) (snd a))) with
      | Returns h => (a, h) :: written_entries ext path rest
      | Raises _ => []
      end
  end.

(** The entries of a whole run: none if the manifest cannot be opened. *)
Definition manifest_entries (cfg : Config) (ext : Collaborators)
    (release : string) (path : option string) : list entry :=
  match open_write ext (under path (manifest_name release)) with
  | Returns _ => written_entries ext path (manifest_order cfg)
  | Raises _ => []
  end.

Definition on_file (hfile : string) (e : event) : Prop :=
  match e with
  | FileOpen p _ => p = hfile
  | FileWrite p _ => p = hfile
  | _ => True
  end.

(** Events of pure reporting: output and the two probes of the machine. *)
Definition only_reports (e : event) : Prop :=
  match e with
  | Stdout _ | GetFileDownloader _ _ | GetArchAndPlatform _ => True
  | _ => False
  end.

Definition not_download (e : event) : Prop := is_download e = false.

Definition conflict_message : string :=
  nl ++ "* You must provide either a release or url not both.".

Definition no_source_message : string :=
  nl ++ "* You must provide a download URL for IDAES binary files.".

(** What [get_extensions] does after the [try] statement. *)
Definition after_download (cfg : Config) (ext : Collaborators)
    (a : get_extensions_args) (r : option (list (string * string)))
  : Py unit :=
  match r with
  | None => ret tt
  | Some d =>
      if no_download a then
        for_each d (fun ki => echo (ljust 14 (fst ki) ++ ": " ++ snd ki))
      else
        print_extensions_version cfg ext (library_only a) (to a) ;;
        ret tt
  end.

(** The release the command works with: the default one when neither a
    release nor a URL is given. *)
Definition effective_release (cfg : Config) (a : get_extensions_args)
  : option string :=
  if negb (is_some (url a)) && negb (is_some (release a))
  then default_binary_release cfg
  else release a.

(** A metadata file is there or is missing: opening it raises nothing but
    [FileNotFoundError]. *)
Definition present_or_missing (o : outcome string) : Prop :=
  match o with
  | Returns _ => True
  | Raises (FileNotFoundError _) => True
  | Raises _ => False
  end.

(** The version shown for a version file, and the lines shown for the
    license file. *)
Definition version_entry (o : outcome string) : string :=
  match o with
  | Returns f => strip (readline f)
  | Raises _ => "no version file found"
  end.

Definition license_lines (o : outcome string) : list string :=
  match o with
  | Returns f => map strip (readlines f)
  | Raises _ => ["no license file found"]
  end.

Definition header_lines (title : string) : list string :=
  [str_repeat "-" 65; "IDAES Extensions " ++ title; str_repeat "=" 65].

Definition footer_lines : list string := [""; str_repeat "=" 65].

(** The last lines of the report: the current system with its aliases,
    the verdict on the build, and the footer. *)
Definition system_report (platform alias_p arch alias_a build_line : string)
  : list string :=
  [nl ++ "Current system information:";
   "       Platform: " ++ platform ++ alias_p;
   "   Architecture: " ++ arch ++ alias_a;
   build_line;
   ""; str_repeat "=" 65].

(** Events of a command that touches no file but the version files of the
    directory [dir], and those only for reading. *)
Definition opens_only_versions (dir : string) (library_only : bool)
    (e : event) : Prop :=
  match e with
  | FileOpen p m =>
      m = "r"
      /\ (p = os_path_join dir "version_lib.txt"
          \/ (library_only = false
              /\ p = os_path_join dir "version_solvers.txt"))
  | FileWrite _ _ | HashFile _ => False
  | _ => True
  end.

(** The directory [print_extensions_version] reads. *)
Definition version_directory (cfg : Config) (bin_directory : option string)
  : string :=
  match bin_directory with
  | None => idaes_bin_directory cfg
  | Some d => d
  end.


(** The lines of the dry-run listing. *)
Definition dry_run_lines (d : list (string * string)) : list event :=
  map (fun ki => Stdout (ljust 14 (fst ki) ++ ": " ++ snd ki)) d.

(** What [print_build_info] prints before the alias tables. *)
Definition build_list_lines (cfg : Config) : list string :=
  (header_lines "Build Information"
   ++ (nl ++ "All Builds (Platform-Architecture):")%string
   :: map (fun build => ("   " ++ build)%string) (base_platforms cfg))%list.

(** The files a command hashed, in the order of the calls. *)
Definition hashes_of (t : trace) : list string :=
  flat_map (fun e => match e with HashFile p => [p] | _ => [] end) t.

(** A text without line terminators. *)
Fixpoint no_line_break (s : string) : bool :=
  match s with
  | "" => true
  | String c r =>
      negb (Ascii.eqb c nl_char) && negb (Ascii.eqb c cr_char)
      && no_line_break r
  end.





(** ** Behaviour of the runtime operations on examples *)

Example readlines_ex :
  readlines ("a" ++ String cr_char nl ++ "b" ++ nl ++ nl ++ "c")
  = ["a" ++ nl; "b" ++ nl; nl; "c"].
Proof. reflexivity. Qed.

Example strip_ex : strip ("  3.4.2 " ++ nl) = "3.4.2".
Proof. reflexivity. Qed.

Example os_path_join_ex :
  os_path_join "./" "a.txt" = "./a.txt" /\ os_path_join "rel" "a.txt" = "rel/a.txt".
Proof. split; reflexivity. Qed.

Example sorted_ex : sorted ["ubuntu"; "darwin"; "el8"] = ["darwin"; "el8"; "ubuntu"].
Proof. reflexivity. Qed.

(** ** Laws of the [Py] monad and of loops *)

Section PyLaws.

Context {A B C : Type}.

Lemma bind_ret_l (a : A) (k : A -> Py B) : bind (ret a) k = k a.
Proof. cbn. destruct (k a); reflexivity. Qed.

Lemma bind_ret_r (m : Py A) : bind m ret = m.
Proof.
  destruct m as [t [a | e]]; cbn; [rewrite app_nil_r |]; reflexivity.
Qed.

Lemma bind_assoc (m : Py A) (k : A -> Py B) (h : B -> Py C) :
  bind (bind m k) h = bind m (fun a => bind (k a) h).
Proof.
  destruct m as [t [a | e]]; cbn; [| reflexivity].
  destruct (k a) as [t' [b | e']]; cbn; [| reflexivity].
  rewrite app_assoc. reflexivity.
Qed.

Lemma bind_returns (t : trace) (a : A) (k : A -> Py B) :
  bind ((t, Returns a) : Py A) k = ((t ++ events (k a))%list, result (k a)).
Proof. reflexivity. Qed.

Lemma bind_raises (t : trace) (e : exn) (k : A -> Py B) :
  bind ((t, Raises e) : Py A) k = (t, Raises e).
Proof. reflexivity. Qed.

End PyLaws.

Lemma unit_eta (f : unit -> Py unit) : forall u, f u = f tt.
Proof. intros []; reflexivity. Qed.

Lemma seq_ret_l (m : Py unit) : (ret tt ;; m) = m.
Proof. cbn. destruct m; reflexivity. Qed.

Lemma seq_ret_r (m : Py unit) : (m ;; ret tt) = m.
Proof.
  destruct m as [t [[] | e]]; cbn; [rewrite app_nil_r |]; reflexivity.
Qed.

Lemma seq_assoc (a b c : Py unit) : ((a ;; b) ;; c) = (a ;; (b ;; c)).
Proof. apply bind_assoc. Qed.

Section Loops.

Context {X Y : Type}.

Lemma for_each_ext (xs : list X) (f g : X -> Py unit) :
  (forall x, In x xs -> f x = g x) -> for_each xs f = for_each xs g.
Proof.
  induction xs as [| x xs IH]; intros Hfg; [reflexivity |].
  cbn [for_each]. rewrite (Hfg x (or_introl eq_refl)).
  rewrite IH; [reflexivity |]. intros y Hy. apply Hfg. right. exact Hy.
Qed.

Lemma for_each_app (xs ys : list X) (f : X -> Py unit) :
  for_each (xs ++ ys) f = (for_each xs f ;; for_each ys f).
Proof.
  induction xs as [| x xs IH].
  - cbn [app for_each]. symmetry. apply seq_ret_l.
  - cbn [app for_each]. rewrite IH. symmetry. apply seq_assoc.
Qed.

Lemma for_each_map (g : Y -> X) (ys : list Y) (f : X -> Py unit) :
  for_each (map g ys) f = for_each ys (fun y => f (g y)).
Proof.
  induction ys as [| y ys IH]; [reflexivity |].
  cbn [map for_each]. rewrite IH. reflexivity.
Qed.

Lemma for_each_flat_map (g : Y -> list X) (ys : list Y) (f : X -> Py unit) :
  for_each (flat_map g ys) f = for_each ys (fun y => for_each (g y) f).
Proof.
  induction ys as [| y ys IH]; [reflexivity |].
  cbn [flat_map for_each]. rewrite for_each_app, IH. reflexivity.
Qed.

(** A loop body that starts with [if not p(x): continue] runs on the
    elements that satisfy [p]. *)
Lemma for_each_filter (p : X -> bool) (xs : list X) (f : X -> Py unit) :
  for_each (filter p xs) f
  = for_each xs (fun x => if negb (p x) then ret tt else f x).
Proof.
  induction xs as [| x xs IH]; [reflexivity |].
  cbn [filter for_each]. destruct (p x); cbn [negb for_each].
  - rewrite IH. reflexivity.
  - rewrite IH. symmetry. apply seq_ret_l.
Qed.

End Loops.

(** ** Facts about traces *)

Lemma writes_to_app (p : string) (t1 t2 : trace) :
  writes_to p (t1 ++ t2)%list = (writes_to p t1 ++ writes_to p t2)%list.
Proof. apply flat_map_app. Qed.

Lemma concat_empty_app (xs ys : list string) :
  String.concat "" (xs ++ ys)%list = String.concat "" xs ++ String.concat "" ys.
Proof.
  induction xs as [| x xs IH]; [reflexivity |].
  destruct xs as [| x' xs].
  - cbn [app]. destruct ys as [| y ys]; cbn.
    + induction x; cbn; congruence.
    + reflexivity.
  - change ((x :: x' :: xs) ++ ys)%list with (x :: (x' :: xs) ++ ys)%list.
    cbn [app String.concat] in *. rewrite IH. cbn [append].
    induction x; cbn; congruence.
Qed.

(** ** Properties of [hash_extensions] *)

Section Manifest.

Context (cfg : Config) (ext : Collaborators).
Context (release : string) (path : option string).

Let hfile : string := under path (manifest_name release).
Let write (a : string * string) : Py unit :=
  _write_hash ext path hfile (fst a) (snd a).

(** The nested loops of the command visit the artifacts in the order of
    [manifest_order]. *)
Lemma hash_extensions_flat :
  hash_extensions cfg ext release path
  = (call (FileOpen hfile "w") (open_write ext hfile) ;;
     for_each (manifest_order cfg) write).
Proof.
  unfold hash_extensions, manifest_order.
  fold hfile. rewrite for_each_app, !for_each_flat_map.
  assert (Hbase :
    for_each cfg.(base_platforms)
      (fun plat => for_each (map (fun pack => (pack, plat)) base_kinds) write)
    = for_each cfg.(base_platforms)
        (fun plat => for_each ["solvers"; "lib"]
                       (fun pack => _write_hash ext path hfile pack plat))).
  { apply for_each_ext. intros plat _. rewrite for_each_map. reflexivity. }
  assert (Hextra :
    for_each cfg.(base_platforms)
      (fun plat =>
         for_each (map (fun pack_sp : string * list string => (fst pack_sp, plat))
                       (filter (fun pack_sp => str_in plat (snd pack_sp))
                               cfg.(extra_binaries))) write)
    = for_each cfg.(base_platforms)
        (fun plat => for_each cfg.(extra_binaries) (fun pack_sp =>
           if negb (str_in plat (snd pack_sp)) then ret tt
           else _write_hash ext path hfile (fst pack_sp) plat))).
  { apply for_each_ext. intros plat _.
    rewrite for_each_map, for_each_filter. reflexivity. }
  rewrite Hbase, Hextra. reflexivity.
Qed.

Lemma _write_hash_run (a : string * string) :
  write a
  = match hash_file_sha256 ext (under path (artifact_name (fst a) (snd a))) with
    | Returns h =>
        ([HashFile (under path (artifact_name (fst a) (snd a)));
          FileWrite hfile h; FileWrite hfile "  ";
          FileWrite hfile (artifact_name (fst a) (snd a));
          FileWrite hfile nl], Returns tt)
    | Raises e =>
        ([HashFile (under path (artifact_name (fst a) (snd a)))], Raises e)
    end.
Proof.
  unfold write, _write_hash.
  destruct (hash_file_sha256 ext _); reflexivity.
Qed.

Lemma write_loop_cons (a : string * string) (rest : list (string * string)) :
  for_each (a :: rest) write
  = match hash_file_sha256 ext (under path (artifact_name (fst a) (snd a))) with
    | Returns h =>
        (HashFile (under path (artifact_name (fst a) (snd a)))
         :: FileWrite hfile h :: FileWrite hfile "  "
         :: FileWrite hfile (artifact_name (fst a) (snd a))
         :: FileWrite hfile nl :: events (for_each rest write),
         result (for_each rest write))
    | Raises e =>
        ([HashFile (under path (artifact_name (fst a) (snd a)))], Raises e)
    end.
Proof.
  cbn [for_each]. rewrite _write_hash_run.
  destruct (hash_file_sha256 ext _); reflexivity.
Qed.

Lemma write_loop_writes (arts : list (string * string)) :
  writes_to hfile (events (for_each arts write))
  = flat_map entry_chunks (written_entries ext path arts).
Proof.
  induction arts as [| [pack plat] rest IH]; [reflexivity |].
  rewrite write_loop_cons. cbn [written_entries fst snd].
  destruct (hash_file_sha256 ext _) as [h | e]; [| reflexivity].
  cbn [events fst flat_map entry_chunks].
  unfold writes_to in *. cbn [flat_map]. rewrite String.eqb_refl, IH.
  reflexivity.
Qed.

Lemma write_loop_on_file (arts : list (string * string)) :
  Forall (on_file hfile) (events (for_each arts write)).
Proof.
  induction arts as [| a rest IH]; [constructor |].
  rewrite write_loop_cons.
  destruct (hash_file_sha256 ext _) as [h | e]; cbn [events fst];
    repeat (constructor; [exact I || reflexivity |]); [exact IH | constructor].
Qed.

Lemma written_entries_prefix (arts : list (string * string)) :
  exists rest,
    arts = (map entry_artifact (written_entries ext path arts) ++ rest)%list.
Proof.
  induction arts as [| a arts [rest IH]]; [exists []; reflexivity |].
  cbn [written_entries].
  destruct (hash_file_sha256 ext _) as [h | e].
  - exists rest. cbn [map entry_artifact fst app]. f_equal. exact IH.
  - exists (a :: arts). reflexivity.
Qed.

Lemma written_entries_sound (arts : list (string * string))
    (pack plat h : string) :
  In (pack, plat, h) (written_entries ext path arts) ->
  In (pack, plat) arts
  /\ hash_file_sha256 ext (under path (artifact_name pack plat)) = Returns h.
Proof.
  induction arts as [| a arts IH]; [intros [] |].
  cbn [written_entries].
  destruct (hash_file_sha256 ext (under path (artifact_name (fst a) (snd a))))
    as [h' | e] eqn:Hh; [| intros []].
  intros [Heq | Hin].
  - inversion Heq; subst. cbn [fst snd] in Hh. split; [left; reflexivity | exact Hh].
  - destruct (IH Hin) as [H1 H2]. split; [right; exact H1 | exact H2].
Qed.

Lemma write_loop_total (arts : list (string * string)) :
  (forall a, In a arts ->
     exists h,
       hash_file_sha256 ext (under path (artifact_name (fst a) (snd a)))
       = Returns h) ->
  result (for_each arts write) = Returns tt
  /\ map entry_artifact (written_entries ext path arts) = arts.
Proof.
  induction arts as [| a arts IH]; intros Hok; [split; reflexivity |].
  rewrite write_loop_cons. cbn [written_entries].
  destruct (Hok a (or_introl eq_refl)) as [h Hh]. rewrite Hh.
  destruct IH as [IH1 IH2]; [intros b Hb; apply Hok; right; exact Hb |].
  split; [exact IH1 |]. cbn [map entry_artifact fst]. f_equal. exact IH2.
Qed.

Lemma write_loop_ext (ext' : Collaborators) (arts : list (string * string)) :
  (forall a, In a arts ->
     hash_file_sha256 ext (under path (artifact_name (fst a) (snd a)))
     = hash_file_sha256 ext' (under path (artifact_name (fst a) (snd a)))) ->
  for_each arts write
  = for_each arts (fun a => _write_hash ext' path hfile (fst a) (snd a)).
Proof.
  intros Hsame. apply for_each_ext. intros a Ha.
  unfold write, _write_hash. rewrite (Hsame a Ha). reflexivity.
Qed.

End Manifest.

Lemma hash_extensions_run (cfg : Config) (ext : Collaborators)
    (release : string) (path : option string) :
  let hfile := under path (manifest_name release) in
  let loop := for_each (manifest_order cfg)
                (fun a => _write_hash ext path hfile (fst a) (snd a)) in
  hash_extensions cfg ext release path
  = match open_write ext hfile with
    | Returns _ => (FileOpen hfile "w" :: events loop, result loop)
    | Raises e => ([FileOpen hfile "w"], Raises e)
    end.
Proof.
  intros hfile loop. rewrite hash_extensions_flat. fold hfile.
  destruct (open_write ext hfile) as [[] | e]; reflexivity.
Qed.

Lemma concat_empty_cons (x : string) (xs : list string) :
  String.concat "" (x :: xs) = x ++ String.concat "" xs.
Proof. apply (concat_empty_app [x] xs). Qed.

Lemma append_assoc (a b c : string) : (a ++ b) ++ c = a ++ (b ++ c).
Proof. induction a; cbn; congruence. Qed.

Lemma concat_entry_chunks (ens : list entry) :
  String.concat "" (flat_map entry_chunks ens)
  = String.concat "" (map entry_line ens).
Proof.
  induction ens as [| [[pack plat] h] ens IH]; [reflexivity |].
  cbn [flat_map map]. rewrite concat_empty_app, IH, concat_empty_cons.
  unfold entry_chunks, entry_line. rewrite !concat_empty_cons.
  cbn [String.concat]. rewrite !append_assoc. reflexivity.
Qed.

Lemma manifest_path_shape (release : string) (path : option string) :
  under path (manifest_name release)
  = match path with
    | None => "sha256sum_" ++ release ++ ".txt"
    | Some p =>
        if (String.length p =? 0)%nat || ends_with_sep p
        then p ++ "sha256sum_" ++ release ++ ".txt"
        else p ++ "/" ++ "sha256sum_" ++ release ++ ".txt"
    end.
Proof. destruct path as [p |]; reflexivity. Qed.

(** C1. The manifest is written by one pass over the platforms with the
    base kinds (solvers, then lib) followed by one pass over the platforms
    with the extras that declare the platform, and in no other order: the
    command equals opening the manifest and writing the artifacts of
    [manifest_order] one after the other.  When the manifest can be opened
    and every artifact can be hashed, the command returns and the pieces
    written are those of one entry per artifact of [manifest_order], in
    that order. *)
Theorem hash_extensions_traversal (cfg : Config) (ext : Collaborators)
    (release : string) (path : option string) :
  let hfile := under path (manifest_name release) in
  hash_extensions cfg ext release path
  = (call (FileOpen hfile "w") (open_write ext hfile) ;;
     for_each (manifest_order cfg)
       (fun a => _write_hash ext path hfile (fst a) (snd a)))
  /\ (open_write ext hfile = Returns tt ->
      (forall a, In a (manifest_order cfg) ->
         exists h,
           hash_file_sha256 ext (under path (artifact_name (fst a) (snd a)))
           = Returns h) ->
      result (hash_extensions cfg ext release path) = Returns tt
      /\ map entry_artifact (manifest_entries cfg ext release path)
         = manifest_order cfg
      /\ writes_to hfile (events (hash_extensions cfg ext release path))
         = flat_map entry_chunks (manifest_entries cfg ext release path)).
Proof.
  intros hfile. split; [apply hash_extensions_flat |].
  intros Hopen Hok. rewrite hash_extensions_run. fold hfile.
  unfold manifest_entries. fold hfile. rewrite Hopen. cbn [result snd events fst].
  destruct (write_loop_total ext release path (manifest_order cfg) Hok)
    as [Hres Hall].
  split; [exact Hres |]. split; [exact Hall |].
  change (FileOpen hfile "w" :: ?t) with ([FileOpen hfile "w"] ++ t)%list.
  apply (write_loop_writes ext release path).
Qed.

Lemma hash_extensions_traversal_witness :
  open_write Sample.ext (under (Some "./") (manifest_name "3.4.2")) = Returns tt
  /\ result (hash_extensions Sample.cfg Sample.ext "3.4.2" (Some "./"))
     = Returns tt
  /\ map entry_artifact (manifest_entries Sample.cfg Sample.ext "3.4.2" (Some "./"))
     = [("solvers", "darwin-aarch64"); ("lib", "darwin-aarch64");
        ("solvers", "el8-x86_64"); ("lib", "el8-x86_64");
        ("solvers", "ubuntu2004-x86_64"); ("lib", "ubuntu2004-x86_64");
        ("solvers", "windows-x86_64"); ("lib", "windows-x86_64");
        ("petsc", "el8-x86_64"); ("petsc", "ubuntu2004-x86_64")].
Proof.
  split; [reflexivity |].
  destruct (proj2 (hash_extensions_traversal Sample.cfg Sample.ext
                     "3.4.2" (Some "./"))) as [Hres [Hall _]].
  - reflexivity.
  - intros a _. eexists. reflexivity.
  - split; [exact Hres | exact Hall].
Defined.

(** C5. The manifest is the file [sha256sum_<release>.txt] under the given
    path, the only file the command opens or writes.  Its contents are
    whole lines, each the hash of an artifact, two spaces, the name
    [idaes-<package>-<platform>.tar.gz] of that artifact and a newline; the
    artifacts are an initial part of the manifest order, and each hash is the
    one [hash_file_sha256] returned for the artifact under the path. *)
Theorem hash_extensions_line_format (cfg : Config) (ext : Collaborators)
    (release : string) (path : option string) :
  let hfile :=
    match path with
    | None => "sha256sum_" ++ release ++ ".txt"
    | Some p => os_path_join p ("sha256sum_" ++ release ++ ".txt")
    end in
  let run := hash_extensions cfg ext release path in
  exists (ens : list entry) (t : trace),
    events run = FileOpen hfile "w" :: t
    /\ Forall (on_file hfile) t
    /\ writes_to hfile (events run)
       = flat_map (fun en : entry =>
                     let '(pack, plat, h) := en in
                     [h; "  "; "idaes-" ++ pack ++ "-" ++ plat ++ ".tar.gz"; nl])
                  ens
    /\ file_contents hfile (events run)
       = String.concat ""
           (map (fun en : entry =>
                   let '(pack, plat, h) := en in
                   h ++ "  " ++ "idaes-" ++ pack ++ "-" ++ plat ++ ".tar.gz" ++ nl)
                ens)
    /\ (exists rest,
          manifest_order cfg = (map entry_artifact ens ++ rest)%list)
    /\ (forall pack plat h, In (pack, plat, h) ens ->
          hash_file_sha256 ext
            (match path with
             | None => "idaes-" ++ pack ++ "-" ++ plat ++ ".tar.gz"
             | Some p => os_path_join p ("idaes-" ++ pack ++ "-" ++ plat ++ ".tar.gz")
             end)
          = Returns h)
    /\ hfile
       = match path with
         | None => "sha256sum_" ++ release ++ ".txt"
         | Some p =>
             if (String.length p =? 0)%nat || ends_with_sep p
             then p ++ "sha256sum_" ++ release ++ ".txt"
             else p ++ "/" ++ "sha256sum_" ++ release ++ ".txt"
         end.
Proof.
  intros hfile run.
  change hfile with (under path (manifest_name release)).
  clear hfile. set (hfile := under path (manifest_name release)).
  assert (Hwrites : forall t,
            writes_to hfile (FileOpen hfile "w" :: t) = writes_to hfile t)
    by reflexivity.
  subst run. rewrite hash_extensions_run. fold hfile.
  destruct (open_write ext hfile) as [[] | e].
  - exists (written_entries ext path (manifest_order cfg)).
    eexists. cbn [events fst].
    split; [reflexivity |].
    split; [apply write_loop_on_file |].
    assert (Hw := write_loop_writes ext release path (manifest_order cfg)).
    fold hfile in Hw.
    split; [rewrite Hwrites; exact Hw |].
    split.
    { unfold file_contents. rewrite Hwrites, Hw. apply concat_entry_chunks. }
    split; [apply written_entries_prefix |].
    split; [| apply manifest_path_shape].
    intros pack plat h Hin.
    apply (written_entries_sound ext path (manifest_order cfg) pack plat h Hin).
  - exists [], []. cbn [events fst].
    split; [reflexivity |].
    split; [constructor |].
    split; [reflexivity |].
    split; [reflexivity |].
    split; [exists (manifest_order cfg); reflexivity |].
    split; [intros ? ? ? [] | apply manifest_path_shape].
Qed.

(** C8. Two runs with the same release tag and path, the same platform and
    extras catalogs, the same answer when the manifest is opened and the same
    hash results for the artifacts of the manifest do the same thing in the
    same order, so the manifest they produce is byte-identical; nothing
    else of the configuration or of the collaborators matters. *)
Theorem hash_extensions_deterministic (cfg1 cfg2 : Config)
    (ext1 ext2 : Collaborators) (release : string) (path : option string) :
  base_platforms cfg1 = base_platforms cfg2 ->
  extra_binaries cfg1 = extra_binaries cfg2 ->
  open_write ext1 (under path (manifest_name release))
  = open_write ext2 (under path (manifest_name release)) ->
  (forall pack plat, In (pack, plat) (manifest_order cfg1) ->
     hash_file_sha256 ext1 (under path (artifact_name pack plat))
     = hash_file_sha256 ext2 (under path (artifact_name pack plat))) ->
  hash_extensions cfg1 ext1 release path = hash_extensions cfg2 ext2 release path
  /\ file_contents (under path (manifest_name release))
       (events (hash_extensions cfg1 ext1 release path))
     = file_contents (under path (manifest_name release))
         (events (hash_extensions cfg2 ext2 release path)).
Proof.
  intros Hplat Hextra Hopen Hhash.
  assert (Heq : hash_extensions cfg1 ext1 release path
                = hash_extensions cfg2 ext2 release path).
  { rewrite !hash_extensions_flat.
    assert (Horder : manifest_order cfg2 = manifest_order cfg1)
      by (unfold manifest_order; rewrite Hplat, Hextra; reflexivity).
    rewrite Horder, Hopen.
    rewrite (write_loop_ext ext1 release path ext2 (manifest_order cfg1));
      [reflexivity |].
    intros [pack plat] Hin. apply Hhash. exact Hin. }
  split; [exact Heq | rewrite Heq; reflexivity].
Qed.

Lemma hash_extensions_deterministic_witness :
  base_platforms Sample.cfg = base_platforms Sample.cfg2
  /\ extra_binaries Sample.cfg = extra_binaries Sample.cfg2
  /\ hash_extensions Sample.cfg Sample.ext "3.4.2" (Some "./")
     = hash_extensions Sample.cfg2 Sample.ext2 "3.4.2" (Some "./").
Proof.
  split; [reflexivity |]. split; [reflexivity |].
  apply (hash_extensions_deterministic Sample.cfg Sample.cfg2
           Sample.ext Sample.ext2 "3.4.2" (Some "./")).
  - reflexivity.
  - reflexivity.
  - reflexivity.
  - intros pack plat Hin. cbn in Hin.
    repeat (destruct Hin as [Hin | Hin]; [inversion Hin; reflexivity |]).
    destruct Hin.
Defined.

(** ** Classes of events *)

Section EventClasses.

Context (P : event -> Prop).

Lemma Forall_events_bind {A B} (m : Py A) (k : A -> Py B) :
  Forall P (events m) -> (forall a, Forall P (events (k a))) ->
  Forall P (events (bind m k)).
Proof.
  intros Hm Hk. destruct m as [t [a | e]]; cbn in *; [| exact Hm].
  apply Forall_app. split; [exact Hm | apply Hk].
Qed.

Lemma Forall_events_catch {A} (m : Py A) (h : exn -> Py A) :
  Forall P (events m) -> (forall e, Forall P (events (h e))) ->
  Forall P (events (catch m h)).
Proof.
  intros Hm Hh. destruct m as [t [a | e]]; cbn in *; [exact Hm |].
  apply Forall_app. split; [exact Hm | apply Hh].
Qed.

Lemma Forall_events_for_each {X} (xs : list X) (f : X -> Py unit) :
  (forall x, Forall P (events (f x))) ->
  Forall P (events (for_each xs f)).
Proof.
  intros Hf. induction xs as [| x xs IH]; [constructor |].
  cbn [for_each]. apply Forall_events_bind; [apply Hf | intros _; exact IH].
Qed.

Lemma Forall_events_ret {A} (a : A) : Forall P (events (ret a : Py A)).
Proof. constructor. Qed.

Lemma Forall_events_raise {A} (e : exn) : Forall P (events (raise e : Py A)).
Proof. constructor. Qed.

Lemma Forall_events_call {A} (e : event) (r : outcome A) :
  P e -> Forall P (events (call e r)).
Proof. intros He. constructor; [exact He | constructor]. Qed.

Lemma Forall_events_emit (e : event) : P e -> Forall P (events (emit e)).
Proof. intros He. constructor; [exact He | constructor]. Qed.

End EventClasses.

(** Splits a computation along its binds, loops and handlers and checks
    each event it emits against the class at hand. *)
Ltac events_in_class :=
  repeat first
    [ apply Forall_events_bind; [| intros ? ]
    | apply Forall_events_catch; [| intros [] ]
    | apply Forall_events_for_each; intros ?
    | apply Forall_events_ret
    | apply Forall_events_raise
    | apply Forall_events_call; exact I
    | apply Forall_events_call; reflexivity
    | apply Forall_events_emit; exact I
    | apply Forall_events_emit; reflexivity
    | match goal with
      | |- Forall _ (events (if ?b then _ else _)) => destruct b
      | |- Forall _ (events (match ?o with Some _ => _ | None => _ end)) =>
          destruct o
      end ].



Lemma not_download_In (t : trace) (args : download_args) :
  Forall not_download t -> ~ In (DownloadBinaries args) t.
Proof.
  intros Hall Hin. rewrite Forall_forall in Hall.
  specialize (Hall _ Hin). discriminate Hall.
Qed.

Lemma only_reports_not_download (t : trace) :
  Forall only_reports t -> Forall not_download t.
Proof.
  apply Forall_impl. intros []; cbn; intros H; try reflexivity; contradiction.
Qed.

Section ReportingCommands.

Context (cfg : Config) (ext : Collaborators).

Lemma print_header_only_reports (title : string) (width : nat) :
  Forall only_reports (events (print_header title width)).
Proof. unfold print_header, echo. events_in_class. Qed.

Lemma print_footer_only_reports (width : nat) :
  Forall only_reports (events (print_footer width)).
Proof. unfold print_footer, echo. events_in_class. Qed.

Lemma max_len_no_events (P : event -> Prop) (xs : list string) :
  Forall P (events (max_len xs)).
Proof. destruct xs; constructor. Qed.

Lemma print_aliases_only_reports (name : string)
    (data : list (string * string)) :
  Forall only_reports (events (print_aliases name data)).
Proof.
  unfold print_aliases, print.
  apply Forall_events_bind; [events_in_class | intros _].
  apply Forall_events_bind; [apply max_len_no_events | intros w].
  events_in_class.
Qed.

Lemma print_system_info_only_reports (platform arch : string) :
  Forall only_reports (events (print_system_info cfg platform arch)).
Proof. unfold print_system_info, print. events_in_class. Qed.

Lemma print_build_info_only_reports :
  Forall only_reports (events (print_build_info cfg ext)).
Proof.
  unfold print_build_info.
  apply Forall_events_bind; [events_in_class | intros fd_].
  apply Forall_events_bind; [apply print_header_only_reports | intros _].
  apply Forall_events_bind; [unfold print; events_in_class | intros _].
  apply Forall_events_bind; [unfold print; events_in_class | intros _].
  apply Forall_events_bind.
  { apply Forall_events_for_each. intros nd. apply print_aliases_only_reports. }
  intros _.
  apply Forall_events_bind; [unfold print; events_in_class | intros _].
  apply Forall_events_bind; [events_in_class | intros ap].
  apply Forall_events_bind; [apply print_system_info_only_reports | intros _].
  apply print_footer_only_reports.
Qed.

Lemma print_extensions_version_not_download (lib : bool) (dir : option string) :
  Forall not_download (events (print_extensions_version cfg ext lib dir)).
Proof.
  unfold print_extensions_version, read_version, print_header, print_footer,
    echo.
  events_in_class.
Qed.

End ReportingCommands.

(** ** Properties of [get_extensions] *)

(** C2. With both a release tag and a URL (and no [--info]) the command
    prints the conflict message and returns: [download_binaries] is not
    called, nothing is raised, and the command returns normally, which is
    exit status zero for the process. *)
Theorem get_extensions_conflict (cfg : Config) (ext : Collaborators)
    (a : get_extensions_args) (r u : string) :
  info a = false -> release a = Some r -> url a = Some u ->
  get_extensions cfg ext a = ([Stdout conflict_message], Returns tt)
  /\ downloads_of (events (get_extensions cfg ext a)) = []
  /\ result (get_extensions cfg ext a) = Returns tt.
Proof.
  intros Hinfo Hrel Hurl.
  assert (Hrun : get_extensions cfg ext a
                 = ([Stdout conflict_message], Returns tt)).
  { unfold get_extensions. rewrite Hinfo, Hrel, Hurl. reflexivity. }
  rewrite Hrun. repeat split.
Qed.

Lemma get_extensions_conflict_witness :
  info (Sample.args (Some "3.4.2") (Some "https://example.org/bin") false) = false
  /\ get_extensions Sample.cfg Sample.ext
       (Sample.args (Some "3.4.2") (Some "https://example.org/bin") false)
     = ([Stdout conflict_message], Returns tt).
Proof.
  split; [reflexivity |].
  apply (get_extensions_conflict Sample.cfg Sample.ext
           (Sample.args (Some "3.4.2") (Some "https://example.org/bin") false)
           "3.4.2" "https://example.org/bin"); reflexivity.
Defined.

(** The three ways the [try] statement can end. *)
Lemma try_download_run (ext : Collaborators) (args : download_args) :
  try_download ext args
  = match download_binaries ext args with
    | Returns d => ([DownloadBinaries args; Stdout "Done"], Returns (Some d))
    | Raises (UnsupportedPlatformError msg) =>
        ([DownloadBinaries args; Stdout ""; Stdout msg; Stdout "";
          Stdout guidance], Returns None)
    | Raises e => ([DownloadBinaries args], Raises e)
    end.
Proof.
  unfold try_download.
  destruct (download_binaries ext args) as [d | []]; reflexivity.
Qed.

Lemma echo_then {A} (s : string) (m : Py A) :
  (echo s ;; m) = (Stdout s :: events m, result m).
Proof. reflexivity. Qed.

(** The command once it has decided to download. *)
Lemma get_extensions_download (cfg : Config) (ext : Collaborators)
    (a : get_extensions_args) :
  info a = false ->
  is_some (url a) && is_some (effective_release cfg a) = false ->
  is_some (url a) || is_some (effective_release cfg a) = true ->
  get_extensions cfg ext a
  = (echo "Getting files..." ;;
     r <- try_download ext (download_args_of a (effective_release cfg a)) ;;
     after_download cfg ext a r).
Proof.
  intros Hinfo Hboth Hone. unfold get_extensions. rewrite Hinfo.
  fold (effective_release cfg a). rewrite Hboth, Hone. reflexivity.
Qed.

Lemma after_download_not_download (cfg : Config) (ext : Collaborators)
    (a : get_extensions_args) (r : option (list (string * string))) :
  Forall not_download (events (after_download cfg ext a r)).
Proof.
  destruct r as [d |]; [| constructor].
  unfold after_download. destruct (no_download a).
  - unfold echo. events_in_class.
  - apply Forall_events_bind;
      [apply print_extensions_version_not_download | intros; constructor].
Qed.

(** Every call of [download_binaries] that [get_extensions] makes is the
    one call of its [try] statement, and the command then runs as the
    download branch. *)
Lemma get_extensions_download_inv (cfg : Config) (ext : Collaborators)
    (a : get_extensions_args) (args : download_args) :
  In (DownloadBinaries args) (events (get_extensions cfg ext a)) ->
  args = download_args_of a (effective_release cfg a)
  /\ get_extensions cfg ext a
     = (echo "Getting files..." ;;
        r <- try_download ext args ;;
        after_download cfg ext a r).
Proof.
  intros Hin.
  destruct (info a) eqn:Hinfo.
  { exfalso. unfold get_extensions in Hin. rewrite Hinfo in Hin.
    apply (not_download_In _ args
             (only_reports_not_download _
                (print_build_info_only_reports cfg ext)) Hin). }
  destruct (is_some (url a) && is_some (effective_release cfg a)) eqn:Hboth.
  { exfalso. unfold get_extensions in Hin. rewrite Hinfo in Hin.
    fold (effective_release cfg a) in Hin. rewrite Hboth in Hin.
    destruct Hin as [Hin | []]. discriminate Hin. }
  destruct (is_some (url a) || is_some (effective_release cfg a)) eqn:Hone.
  2: { exfalso. unfold get_extensions in Hin. rewrite Hinfo in Hin.
       fold (effective_release cfg a) in Hin. rewrite Hboth, Hone in Hin.
       destruct Hin as [Hin | []]. discriminate Hin. }
  pose proof (get_extensions_download cfg ext a Hinfo Hboth Hone) as Hrun.
  assert (Hargs : args = download_args_of a (effective_release cfg a)).
  { rewrite Hrun, echo_then, try_download_run in Hin.
    destruct Hin as [Hin | Hin]; [discriminate Hin |].
    destruct (download_binaries ext _) as [d | e].
    - rewrite bind_returns in Hin. cbn [events fst app] in Hin.
      destruct Hin as [Hin | [Hin | Hin]];
        [inversion Hin; reflexivity | discriminate Hin |].
      exfalso.
      apply (not_download_In _ args
               (after_download_not_download cfg ext a (Some d)) Hin).
    - destruct e; first
        [ rewrite bind_raises in Hin; destruct Hin as [Hin | []];
          inversion Hin; reflexivity
        | rewrite bind_returns in Hin; cbn [events fst app] in Hin;
          destruct Hin as [Hin | Hin]; [inversion Hin; reflexivity |];
          repeat (destruct Hin as [Hin | Hin]; [discriminate Hin |]);
          destruct Hin ]. }
  split; [exact Hargs | rewrite Hargs; exact Hrun].
Qed.

(** C4. Whenever [get_extensions] calls [download_binaries] and the call
    raises [UnsupportedPlatformError], the command catches the exception
    and returns normally after printing an empty line, the message of the
    exception, an empty line and the guidance text; the guidance names the
    [--distro <os>] command and the [--info] command. *)
Theorem get_extensions_unsupported_platform (cfg : Config)
    (ext : Collaborators) (a : get_extensions_args)
    (args : download_args) (msg : string) :
  In (DownloadBinaries args) (events (get_extensions cfg ext a)) ->
  download_binaries ext args = Raises (UnsupportedPlatformError msg) ->
  get_extensions cfg ext a
  = ([Stdout "Getting files..."; DownloadBinaries args;
      Stdout ""; Stdout msg; Stdout "";
      Stdout ("Use the command 'idaes get-extensions --distro <os>' "
              ++ "to specify an OS distribution" ++ nl
              ++ "Use the command 'idaes get-extensions --info' "
              ++ "to see supported platforms")],
     Returns tt)
  /\ (exists pre post,
        guidance = pre ++ "'idaes get-extensions --distro <os>'" ++ post)
  /\ (exists pre post,
        guidance = pre ++ "'idaes get-extensions --info'" ++ post).
Proof.
  intros Hin Hraise.
  destruct (get_extensions_download_inv cfg ext a args Hin) as [_ Hrun].
  split; [| split].
  - rewrite Hrun, echo_then, try_download_run, Hraise. reflexivity.
  - exists "Use the command ".
    exists (" to specify an OS distribution" ++ nl
            ++ "Use the command 'idaes get-extensions --info' "
            ++ "to see supported platforms").
    reflexivity.
  - exists ("Use the command 'idaes get-extensions --distro <os>' "
            ++ "to specify an OS distribution" ++ nl ++ "Use the command ").
    exists " to see supported platforms".
    reflexivity.
Qed.

Lemma get_extensions_unsupported_platform_witness :
  In (DownloadBinaries
        (download_args_of (Sample.args (Some "3.4.2") None false) (Some "3.4.2")))
     (events (get_extensions Sample.cfg Sample.ext_unknown
                (Sample.args (Some "3.4.2") None false)))
  /\ stdout_of (events (get_extensions Sample.cfg Sample.ext_unknown
                         (Sample.args (Some "3.4.2") None false)))
     = ["Getting files..."; ""; "Could not find a build"; ""; guidance]
  /\ result (get_extensions Sample.cfg Sample.ext_unknown
               (Sample.args (Some "3.4.2") None false))
     = Returns tt.
Proof.
  assert (Hin : In (DownloadBinaries
                      (download_args_of (Sample.args (Some "3.4.2") None false)
                                        (Some "3.4.2")))
                   (events (get_extensions Sample.cfg Sample.ext_unknown
                              (Sample.args (Some "3.4.2") None false))))
    by (right; left; reflexivity).
  split; [exact Hin |].
  destruct (get_extensions_unsupported_platform Sample.cfg Sample.ext_unknown
              (Sample.args (Some "3.4.2") None false) _
              "Could not find a build" Hin eq_refl) as [Hrun _].
  rewrite Hrun. split; reflexivity.
Defined.

(** C3, as the code has it.  With neither a release tag nor a URL (and no
    [--info]) the command takes the default release of the configuration
    and downloads it: it prints [Getting files...] and calls
    [download_binaries] with that release and no URL.  Only a configuration
    without a default release leads to the message that a download URL
    must be provided, and then nothing is downloaded. *)
Theorem get_extensions_no_source (cfg : Config) (ext : Collaborators)
    (a : get_extensions_args) :
  info a = false -> release a = None -> url a = None ->
  (forall r, default_binary_release cfg = Some r ->
     exists t,
       events (get_extensions cfg ext a)
       = Stdout "Getting files..."
         :: DownloadBinaries (download_args_of a (Some r)) :: t)
  /\ (default_binary_release cfg = None ->
      get_extensions cfg ext a = ([Stdout no_source_message], Returns tt)).
Proof.
  intros Hinfo Hrel Hurl.
  assert (Heff : effective_release cfg a = default_binary_release cfg)
    by (unfold effective_release; rewrite Hrel, Hurl; reflexivity).
  split.
  - intros r Hdef.
    rewrite (get_extensions_download cfg ext a Hinfo);
      rewrite ?Heff, ?Hdef, ?Hurl; try reflexivity.
    rewrite echo_then, try_download_run.
    destruct (download_binaries ext _) as [d | []];
      rewrite ?bind_returns, ?bind_raises; eexists; reflexivity.
  - intros Hdef. unfold get_extensions.
    rewrite Hinfo, Hrel, Hurl, Hdef. reflexivity.
Qed.

Lemma get_extensions_no_source_witness :
  info (Sample.args None None false) = false
  /\ release (Sample.args None None false) = None
  /\ url (Sample.args None None false) = None
  /\ default_binary_release Sample.cfg = Some "3.4.2"
  /\ exists t,
       events (get_extensions Sample.cfg Sample.ext (Sample.args None None false))
       = Stdout "Getting files..."
         :: DownloadBinaries
              (download_args_of (Sample.args None None false) (Some "3.4.2"))
         :: t.
Proof.
  repeat (split; [reflexivity |]).
  apply (proj1 (get_extensions_no_source Sample.cfg Sample.ext
                  (Sample.args None None false) eq_refl eq_refl eq_refl)).
  reflexivity.
Defined.

(** C3 as stated fails: on the sample installation, with neither a release
    nor a URL, no error message is printed and [download_binaries] is
    called with the default release. *)
Lemma get_extensions_no_source_counterexample :
  info (Sample.args None None false) = false
  /\ release (Sample.args None None false) = None
  /\ url (Sample.args None None false) = None
  /\ downloads_of
       (events (get_extensions Sample.cfg Sample.ext (Sample.args None None false)))
     = [mk_download_args (Some "3.4.2") None false None false "auto"
          false false false false [] None]
  /\ ~ (In (Stdout no_source_message)
           (events (get_extensions Sample.cfg Sample.ext
                      (Sample.args None None false)))
        /\ downloads_of
             (events (get_extensions Sample.cfg Sample.ext
                        (Sample.args None None false)))
           = []).
Proof.
  repeat (split; [reflexivity |]).
  intros [_ Hnone]. discriminate Hnone.
Qed.

(** ** Properties of [bin_platform] *)

(** C9. When [_get_arch_and_platform] itself raises
    [UnsupportedPlatformError], the handler reads the local [platform]
    before any assignment: the command ends with [UnboundLocalError] and
    prints nothing.  When the exception comes from [_get_release_platform],
    [platform] has been assigned and the handler prints its message with
    it. *)
Theorem bin_platform_unbound_platform (ext : Collaborators) (distro : string)
    (fd : FileDownloader ext) (ab : ArchBits ext) :
  _get_file_downloader ext false None = Returns (fd, ab) ->
  (forall msg,
     _get_arch_and_platform ext fd distro
     = Raises (UnsupportedPlatformError msg) ->
     bin_platform ext distro
     = ([GetFileDownloader false None; GetArchAndPlatform distro],
        Raises (UnboundLocalError "platform"))
     /\ stdout_of (events (bin_platform ext distro)) = [])
  /\ (forall ab' platform msg,
        _get_arch_and_platform ext fd distro = Returns (ab', platform) ->
        _get_release_platform ext platform
        = Raises (UnsupportedPlatformError msg) ->
        bin_platform ext distro
        = ([GetFileDownloader false None; GetArchAndPlatform distro;
            GetReleasePlatform platform;
            Stdout ("No supported binaries found for " ++ platform ++ ". "
                    ++ "Use the command 'idaes get-extensions --info' "
                    ++ "to see supported platforms")],
           Returns tt)).
Proof.
  intros Hfd. split.
  - intros msg Hprobe.
    assert (Hrun : bin_platform ext distro
                   = ([GetFileDownloader false None; GetArchAndPlatform distro],
                      Raises (UnboundLocalError "platform"))).
    { unfold bin_platform. rewrite Hfd. cbn [call bind Monad_Py Py_bind fst snd].
      rewrite Hprobe. reflexivity. }
    rewrite Hrun. split; reflexivity.
  - intros ab' platform msg Hprobe Hrel.
    unfold bin_platform. rewrite Hfd. cbn [call bind Monad_Py Py_bind fst snd].
    rewrite Hprobe. cbn. rewrite Hrel. reflexivity.
Qed.

Lemma bin_platform_unbound_platform_witness :
  _get_file_downloader Sample.ext_unknown false None = Returns (tt, tt)
  /\ bin_platform Sample.ext_unknown "auto"
     = ([GetFileDownloader false None; GetArchAndPlatform "auto"],
        Raises (UnboundLocalError "platform"))
  /\ bin_platform Sample.ext "plan9"
     = ([GetFileDownloader false None; GetArchAndPlatform "plan9";
         GetReleasePlatform "plan9";
         Stdout ("No supported binaries found for plan9. "
                 ++ "Use the command 'idaes get-extensions --info' "
                 ++ "to see supported platforms")],
        Returns tt).
Proof.
  split; [reflexivity |]. split.
  - apply (proj1 (bin_platform_unbound_platform Sample.ext_unknown "auto"
                    tt tt eq_refl) "no platform" eq_refl).
  - apply (proj2 (bin_platform_unbound_platform Sample.ext "plan9"
                    tt tt eq_refl) tt "plan9" "unsupported: plan9");
      reflexivity.
Defined.

(** ** Properties of [print_extensions_version] and [print_license] *)

Lemma read_version_run (ext : Collaborators) (v : string) :
  present_or_missing (open_read ext v) ->
  read_version ext v
  = ([FileOpen v "r"], Returns (version_entry (open_read ext v))).
Proof.
  unfold read_version, call.
  destruct (open_read ext v) as [f | []]; cbn; intros H;
    try contradiction; reflexivity.
Qed.

Lemma for_each_echo {X} (g : X -> string) (xs : list X) :
  for_each xs (fun x => echo (g x))
  = (map (fun x => Stdout (g x)) xs, Returns tt).
Proof.
  induction xs as [| x xs IH]; [reflexivity |].
  cbn [for_each map]. rewrite IH. reflexivity.
Qed.

Lemma stdout_of_app (t1 t2 : trace) :
  stdout_of (t1 ++ t2)%list = (stdout_of t1 ++ stdout_of t2)%list.
Proof. apply flat_map_app. Qed.

Lemma stdout_of_map_Stdout {X} (g : X -> string) (xs : list X) :
  stdout_of (map (fun x => Stdout (g x)) xs) = map g xs.
Proof.
  induction xs as [| x xs IH]; [reflexivity |].
  cbn [map]. change (stdout_of (Stdout (g x) :: ?t)) with (g x :: stdout_of t).
  rewrite IH. reflexivity.
Qed.

(** C6. A missing version or license file is not an error.  When each
    metadata file is either readable or missing, both functions return 0;
    [print_extensions_version] prints, between header and footer, one line
    per entry holding the first line of the file, stripped, or the
    placeholder [no version file found] when the file is missing;
    [print_license] prints the stripped lines of the license, or
    [no license file found] when it is missing. *)
Theorem metadata_files_may_be_missing (cfg : Config) (ext : Collaborators) :
  (forall (library_only : bool) (bin_directory : option string),
     let dir := match bin_directory with
                | None => idaes_bin_directory cfg
                | Some d => d
                end in
     let solvers := open_read ext (os_path_join dir "version_solvers.txt") in
     let lib := open_read ext (os_path_join dir "version_lib.txt") in
     (library_only = false -> present_or_missing solvers) ->
     present_or_missing lib ->
     result (print_extensions_version cfg ext library_only bin_directory)
     = Returns 0%Z
     /\ stdout_of
          (events (print_extensions_version cfg ext library_only bin_directory))
        = (header_lines "Build Versions"
           ++ (if library_only then []
               else [("Solvers:  v" ++ version_entry solvers)%string])
           ++ [("Library:  v" ++ version_entry lib)%string]
           ++ footer_lines)%list)
  /\ (forall p, version_entry (Raises (FileNotFoundError p))
                = "no version file found")
  /\ (let license :=
        open_read ext (os_path_join (idaes_bin_directory cfg) "license.txt") in
      present_or_missing license ->
      result (print_license cfg ext) = Returns 0%Z
      /\ stdout_of (events (print_license cfg ext))
         = (header_lines "License Information"
            ++ license_lines license ++ [""] ++ footer_lines)%list)
  /\ (forall p, license_lines (Raises (FileNotFoundError p))
                = ["no license file found"]).
Proof.
  split; [| split; [reflexivity | split; [| reflexivity]]].
  - intros library_only bin_directory dir solvers lib Hsolvers Hlib.
    unfold print_extensions_version. fold dir.
    rewrite (read_version_run ext (os_path_join dir "version_lib.txt") Hlib).
    destruct library_only.
    + split; reflexivity.
    + rewrite (read_version_run ext (os_path_join dir "version_solvers.txt")
                 (Hsolvers eq_refl)).
      split; reflexivity.
  - intros license Hlicense. unfold print_license, call. fold license.
    destruct license as [f | e].
    + cbn [catch Exc_Py Py_catch bind Monad_Py Py_bind fst snd app].
      rewrite for_each_echo. cbn [fst snd]. split; [reflexivity |].
      cbn [events fst print_header print_footer echo emit bind Monad_Py
             Py_bind app snd ret Py_ret].
      change (stdout_of (?a :: ?b :: ?c :: ?d :: ?t))
        with (stdout_of [a; b; c; d] ++ stdout_of t)%list.
      rewrite stdout_of_app, stdout_of_map_Stdout. reflexivity.
    + destruct e; cbn in Hlicense; try contradiction. split; reflexivity.
Qed.

Lemma metadata_files_may_be_missing_witness :
  present_or_missing
    (open_read Sample.ext
       (os_path_join (idaes_bin_directory Sample.cfg) "version_solvers.txt"))
  /\ result (print_extensions_version Sample.cfg Sample.ext false None)
     = Returns 0%Z
  /\ stdout_of (events (print_extensions_version Sample.cfg Sample.ext false None))
     = (header_lines "Build Versions"
        ++ ["Solvers:  vno version file found";
            "Library:  vno version file found"]
        ++ footer_lines)%list
  /\ result (print_license Sample.cfg Sample.ext) = Returns 0%Z
  /\ stdout_of (events (print_license Sample.cfg Sample.ext))
     = (header_lines "License Information"
        ++ ["no license file found"; ""] ++ footer_lines)%list.
Proof.
  split; [exact I |].
  destruct (metadata_files_may_be_missing Sample.cfg Sample.ext)
    as [Hversion [_ [Hlicense _]]].
  destruct (Hversion false None (fun _ => I) I) as [Hres Hout].
  destruct (Hlicense I) as [Hres' Hout'].
  split; [exact Hres |]. split; [exact Hout |].
  split; [exact Hres' | exact Hout'].
Defined.

(** ** Properties of [print_build_info] *)

Lemma str_in_In (x : string) (xs : list string) :
  str_in x xs = true <-> In x xs.
Proof.
  unfold str_in. rewrite existsb_exists. split.
  - intros [y [Hy Heq]]. apply String.eqb_eq in Heq. subst. exact Hy.
  - intros Hx. exists x. split; [exact Hx | apply String.eqb_refl].
Qed.

Lemma seq_returns {B} (m : Py unit) (n : Py B) :
  result m = Returns tt ->
  (m ;; n) = ((events m ++ events n)%list, result n).
Proof.
  destruct m as [t [[] | e]]; cbn; intros H; [reflexivity | discriminate H].
Qed.

Lemma for_each_print_returns {X} (g : X -> string) (xs : list X) :
  result (for_each xs (fun x => print (g x))) = Returns tt.
Proof.
  change (result (for_each xs (fun x => echo (g x))) = Returns tt).
  rewrite for_each_echo. reflexivity.
Qed.

Lemma rmap_append_nonempty (rmap : list (string * list string)) (v k : string) :
  rmap_append rmap v k <> [].
Proof.
  destruct rmap as [| [v' ks] rest]; cbn; [discriminate |].
  destruct (v' =? v); discriminate.
Qed.

Lemma alias_table_nonempty (data : list (string * string)) :
  data <> [] -> alias_table data <> [].
Proof.
  unfold alias_table.
  assert (Hfold : forall d acc, acc <> [] ->
            fold_left (fun rmap kv => rmap_append rmap (snd kv) (fst kv)) d acc
            <> []).
  { induction d as [| kv d IH]; intros acc Hacc; [exact Hacc |].
    cbn [fold_left]. apply IH, rmap_append_nonempty. }
  destruct data as [| kv d]; [congruence |]. intros _.
  cbn [fold_left]. apply Hfold, rmap_append_nonempty.
Qed.

Lemma print_aliases_returns (name : string) (data : list (string * string)) :
  data <> [] -> result (print_aliases name data) = Returns tt.
Proof.
  intros Hdata. unfold print_aliases.
  rewrite seq_returns by reflexivity. cbn [result snd].
  pose proof (alias_table_nonempty data Hdata) as Hne.
  destruct (alias_table data) as [| [v ks] rest] eqn:Htab; [congruence |].
  cbn [map fst max_len]. rewrite bind_ret_l.
  apply for_each_print_returns.
Qed.

Lemma print_system_info_run (cfg : Config) (platform arch : string) :
  let to_platform := canonical_distro cfg platform in
  let to_mach := canonical_arch cfg arch in
  let to_build := to_platform ++ "-" ++ to_mach in
  print_system_info cfg platform arch
  = ([Stdout ("       Platform: " ++ platform
              ++ (if to_platform =? platform then ""
                  else " -> " ++ to_platform));
      Stdout ("   Architecture: " ++ arch
              ++ (if to_mach =? arch then "" else " -> " ++ to_mach));
      Stdout (if str_in to_build (base_platforms cfg)
              then "      Use build: " ++ to_build
              else "   !! Unsupported platform/architecture combination")],
     Returns tt).
Proof.
  intros to_platform to_mach to_build. unfold print_system_info.
  fold to_platform to_mach to_build.
  destruct (str_in to_build (base_platforms cfg)); reflexivity.
Qed.

(** The command up to the report on the current system. *)
Lemma print_build_info_run (cfg : Config) (ext : Collaborators)
    (fd : FileDownloader ext) (ab ab' : ArchBits ext) (platform : string) :
  _get_file_downloader ext false None = Returns (fd, ab) ->
  _get_arch_and_platform ext fd "auto" = Returns (ab', platform) ->
  binary_distro_map cfg <> [] ->
  binary_arch_map cfg <> [] ->
  exists t,
    print_build_info cfg ext
    = ((t ++ Stdout (nl ++ "Current system information:")
          :: GetArchAndPlatform "auto"
          :: (events (print_system_info cfg platform (machine ext))
              ++ [Stdout ""; Stdout (str_repeat "=" 65)]))%list,
       Returns tt).
Proof.
  intros Hfd Hprobe Hdistro Harch.
  unfold print_build_info. rewrite Hfd. unfold call at 1.
  rewrite bind_returns. cbv beta. cbn [fst].
  rewrite (seq_returns (print_header _ _)) by reflexivity.
  cbn [events result fst snd].
  rewrite (seq_returns (print _)) by reflexivity.
  cbn [events result fst snd].
  rewrite (seq_returns (for_each (base_platforms cfg) _))
    by apply for_each_print_returns.
  cbn [events result fst snd].
  rewrite (seq_returns (for_each [_; _] _)).
  2: { cbn [for_each fst snd].
       rewrite (seq_returns (print_aliases _ _))
         by (apply print_aliases_returns; exact Hdistro).
       cbn [result snd].
       rewrite (seq_returns (print_aliases _ _))
         by (apply print_aliases_returns; exact Harch).
       reflexivity. }
  cbn [events result fst snd].
  rewrite (seq_returns (print _)) by reflexivity.
  rewrite Hprobe. unfold call. rewrite bind_returns. cbv beta.
  cbn [events result fst snd].
  rewrite (seq_returns (print_system_info _ _ _))
    by (rewrite print_system_info_run; reflexivity).
  exists (GetFileDownloader false None
          :: events (print_header "Build Information" 65)
          ++ Stdout (nl ++ "All Builds (Platform-Architecture):")
          :: events (for_each (base_platforms cfg)
                       (fun build => print ("   " ++ build)))
          ++ events (for_each [("Platform", binary_distro_map cfg);
                               ("Architecture", binary_arch_map cfg)]
                       (fun nd => print_aliases (fst nd) (snd nd))))%list.
  cbn [events result fst snd print emit app].
  f_equal. f_equal.
  change (Stdout (nl ++ "All Builds (Platform-Architecture):") :: ?x)
    with ([Stdout (nl ++ "All Builds (Platform-Architecture):")] ++ x)%list.
  rewrite <- !app_assoc. reflexivity.
Qed.

(** C7. In [print_build_info] the build identifier is the canonical distro
    and the canonical architecture joined by ["-"].  After the probe of the
    system the command prints the platform and the architecture, each
    followed by [" -> <canonical>"] exactly when canonicalization changed
    the raw string, and then [Use build: <id>] exactly when the identifier
    is in the catalog of builds and the unsupported-combination line
    otherwise. *)
Theorem print_build_info_build_report (cfg : Config) (ext : Collaborators)
    (fd : FileDownloader ext) (ab ab' : ArchBits ext) (platform : string) :
  _get_file_downloader ext false None = Returns (fd, ab) ->
  _get_arch_and_platform ext fd "auto" = Returns (ab', platform) ->
  binary_distro_map cfg <> [] ->
  binary_arch_map cfg <> [] ->
  let arch := machine ext in
  let to_platform := canonical_distro cfg platform in
  let to_mach := canonical_arch cfg arch in
  let to_build := to_platform ++ "-" ++ to_mach in
  exists (pre : list string) (alias_p alias_a build_line : string),
    result (print_build_info cfg ext) = Returns tt
    /\ stdout_of (events (print_build_info cfg ext))
       = (pre ++ system_report platform alias_p arch alias_a build_line)%list
    /\ (alias_p = " -> " ++ to_platform <-> to_platform <> platform)
    /\ (alias_p = "" <-> to_platform = platform)
    /\ (alias_a = " -> " ++ to_mach <-> to_mach <> arch)
    /\ (alias_a = "" <-> to_mach = arch)
    /\ (build_line = "      Use build: " ++ to_build
        <-> In to_build (base_platforms cfg))
    /\ (build_line = "   !! Unsupported platform/architecture combination"
        <-> ~ In to_build (base_platforms cfg)).
Proof.
  intros Hfd Hprobe Hdistro Harch arch to_platform to_mach to_build.
  destruct (print_build_info_run cfg ext fd ab ab' platform
              Hfd Hprobe Hdistro Harch) as [t Hrun].
  rewrite Hrun, print_system_info_run.
  fold arch to_platform to_mach to_build.
  exists (stdout_of t).
  exists (if to_platform =? platform then "" else " -> " ++ to_platform).
  exists (if to_mach =? arch then "" else " -> " ++ to_mach).
  exists (if str_in to_build (base_platforms cfg)
          then "      Use build: " ++ to_build
          else "   !! Unsupported platform/architecture combination").
  split; [reflexivity |].
  split; [cbn [events fst]; rewrite stdout_of_app; reflexivity |].
  assert (Halias : forall canon raw : string,
            ((if canon =? raw then "" else " -> " ++ canon) = " -> " ++ canon
             <-> canon <> raw)
            /\ ((if canon =? raw then "" else " -> " ++ canon) = ""
                <-> canon = raw)).
  { intros canon raw. destruct (String.eqb_spec canon raw) as [Heq | Hne].
    - split; split; intros H; try reflexivity; try exact Heq;
        [discriminate H | contradiction].
    - split; split; intros H; try reflexivity; try exact Hne;
        [discriminate H | contradiction]. }
  destruct (Halias to_platform platform) as [Hp1 Hp2].
  destruct (Halias to_mach arch) as [Ha1 Ha2].
  repeat (split; [assumption |]).
  pose proof (str_in_In to_build (base_platforms cfg)) as Hin.
  destruct (str_in to_build (base_platforms cfg)).
  - split; split; intros H; try reflexivity.
    + apply Hin. reflexivity.
    + discriminate H.
    + exfalso. apply H, Hin. reflexivity.
  - assert (Hnot : ~ In to_build (base_platforms cfg))
      by (intros H; apply Hin in H; discriminate H).
    split; split; intros H; try reflexivity.
    + discriminate H.
    + contradiction.
    + exact Hnot.
Qed.

Lemma print_build_info_build_report_witness :
  _get_file_downloader Sample.ext false None = Returns (tt, tt)
  /\ _get_arch_and_platform Sample.ext tt "auto" = Returns (tt, "rocky8")
  /\ exists pre,
       stdout_of (events (print_build_info Sample.cfg Sample.ext))
       = (pre ++ system_report "rocky8" " -> el8" "amd64" " -> x86_64"
                    "      Use build: el8-x86_64")%list.
Proof.
  split; [reflexivity |]. split; [reflexivity |].
  destruct (print_build_info_build_report Sample.cfg Sample.ext tt tt tt
              "rocky8" eq_refl eq_refl)
    as [pre [alias_p [alias_a [build_line
          [_ [Hout [Hp [_ [Ha [_ [Hb _]]]]]]]]]]].
  - discriminate.
  - discriminate.
  - exists pre. rewrite Hout.
    rewrite (proj2 Hp) by discriminate.
    rewrite (proj2 Ha) by discriminate.
    rewrite (proj2 Hb) by (right; left; reflexivity).
    reflexivity.
Defined.

(** ** Further properties of [get_extensions] *)




(** X2. In a dry run ([--no-download]) a successful call of
    [download_binaries] is followed by [Done] and one line per entry of the
    returned dictionary, in its order, the key padded to 14 columns; no
    version file is opened. *)
Theorem get_extensions_dry_run (cfg : Config) (ext : Collaborators)
    (a : get_extensions_args) (args : download_args)
    (d : list (string * string)) :
  In (DownloadBinaries args) (events (get_extensions cfg ext a)) ->
  download_binaries ext args = Returns d ->
  no_download a = true ->
  get_extensions cfg ext a
  = ((Stdout "Getting files..." :: DownloadBinaries args :: Stdout "Done"
      :: dry_run_lines d)%list,
     Returns tt).
Proof.
  intros Hin Hdown Hdry.
  destruct (get_extensions_download_inv cfg ext a args Hin) as [_ Hrun].
  rewrite Hrun, echo_then, try_download_run, Hdown, bind_returns.
  unfold after_download. rewrite Hdry, for_each_echo. reflexivity.
Qed.

Lemma get_extensions_dry_run_witness :
  In (DownloadBinaries
        (download_args_of (Sample.dry_run_args (Some "3.4.2")) (Some "3.4.2")))
     (events (get_extensions Sample.cfg Sample.ext
                (Sample.dry_run_args (Some "3.4.2"))))
  /\ get_extensions Sample.cfg Sample.ext (Sample.dry_run_args (Some "3.4.2"))
     = ([Stdout "Getting files...";
         DownloadBinaries
           (download_args_of (Sample.dry_run_args (Some "3.4.2")) (Some "3.4.2"));
         Stdout "Done";
         Stdout "lib           : /tmp/idaes-lib-el8-x86_64.tar.gz"],
        Returns tt).
Proof.
  assert (Hin : In (DownloadBinaries
                      (download_args_of (Sample.dry_run_args (Some "3.4.2"))
                                        (Some "3.4.2")))
                   (events (get_extensions Sample.cfg Sample.ext
                              (Sample.dry_run_args (Some "3.4.2")))))
    by (right; left; reflexivity).
  split; [exact Hin |].
  apply (get_extensions_dry_run Sample.cfg Sample.ext
           (Sample.dry_run_args (Some "3.4.2")) _
           [("lib", "/tmp/idaes-lib-el8-x86_64.tar.gz")] Hin);
    reflexivity.
Defined.

(** X3. An exception of [download_binaries] other than
    [UnsupportedPlatformError] is not caught: the command ends with it right
    after the call, and prints neither [Done] nor the guidance. *)
Theorem get_extensions_download_error (cfg : Config) (ext : Collaborators)
    (a : get_extensions_args) (args : download_args) (e : exn) :
  In (DownloadBinaries args) (events (get_extensions cfg ext a)) ->
  download_binaries ext args = Raises e ->
  (forall msg, e <> UnsupportedPlatformError msg) ->
  get_extensions cfg ext a
  = ([Stdout "Getting files..."; DownloadBinaries args], Raises e).
Proof.
  intros Hin Hdown Hother.
  destruct (get_extensions_download_inv cfg ext a args Hin) as [_ Hrun].
  rewrite Hrun, echo_then, try_download_run, Hdown.
  destruct e; try reflexivity.
  exfalso. apply (Hother msg). reflexivity.
Qed.

Lemma get_extensions_download_error_witness :
  download_binaries Sample.ext_offline
    (download_args_of (Sample.args (Some "3.4.2") None false) (Some "3.4.2"))
  = Raises (OtherError "connection refused")
  /\ get_extensions Sample.cfg Sample.ext_offline
       (Sample.args (Some "3.4.2") None false)
     = ([Stdout "Getting files...";
         DownloadBinaries
           (download_args_of (Sample.args (Some "3.4.2") None false)
                             (Some "3.4.2"))],
        Raises (OtherError "connection refused")).
Proof.
  split; [reflexivity |].
  apply (get_extensions_download_error Sample.cfg Sample.ext_offline
           (Sample.args (Some "3.4.2") None false)).
  - right; left; reflexivity.
  - reflexivity.
  - intros msg H. discriminate H.
Defined.

Lemma print_header_stdout_only (P : event -> Prop) (title : string)
    (width : nat) :
  (forall s, P (Stdout s)) -> Forall P (events (print_header title width)).
Proof. intros HP. repeat constructor; apply HP. Qed.

Lemma print_footer_stdout_only (P : event -> Prop) (width : nat) :
  (forall s, P (Stdout s)) -> Forall P (events (print_footer width)).
Proof. intros HP. repeat constructor; apply HP. Qed.

Lemma read_version_opens (ext : Collaborators) (P : event -> Prop)
    (v : string) :
  P (FileOpen v "r") -> Forall P (events (read_version ext v)).
Proof.
  intros HP. unfold read_version, call.
  destruct (open_read ext v) as [f | []]; repeat constructor; exact HP.
Qed.

Lemma print_extensions_version_opens (cfg : Config) (ext : Collaborators)
    (library_only : bool) (bin_directory : option string) :
  Forall (opens_only_versions (version_directory cfg bin_directory) library_only)
    (events (print_extensions_version cfg ext library_only bin_directory)).
Proof.
  unfold print_extensions_version. fold (version_directory cfg bin_directory).
  apply Forall_events_bind;
    [apply print_header_stdout_only; intros; exact I | intros _].
  apply Forall_events_bind.
  { destruct library_only; cbn [negb]; [constructor |].
    apply Forall_events_bind; [| intros v; repeat constructor].
    apply read_version_opens. split; [reflexivity |].
    right. split; reflexivity. }
  intros _.
  apply Forall_events_bind.
  { apply read_version_opens. split; [reflexivity | left; reflexivity]. }
  intros v.
  apply Forall_events_bind; [repeat constructor | intros _].
  apply Forall_events_bind;
    [apply print_footer_stdout_only; intros; exact I | intros _; constructor].
Qed.

Lemma only_reports_opens_only_versions (dir : string) (lib : bool) (t : trace) :
  Forall only_reports t -> Forall (opens_only_versions dir lib) t.
Proof.
  apply Forall_impl. intros []; cbn; intros H; try exact I; contradiction.
Qed.

(** X4. Whatever its options, [get_extensions] itself writes no file and
    hashes none; the only files it opens are the version files of the
    install directory (the [--to] location when given, else
    [idaes.bin_directory]), for reading, and with [--library-only] not the
    solver version file. *)
Theorem get_extensions_opens_only_versions (cfg : Config) (ext : Collaborators)
    (a : get_extensions_args) :
  Forall (opens_only_versions
            (match to a with
             | None => idaes_bin_directory cfg
             | Some d => d
             end)
            (library_only a))
    (events (get_extensions cfg ext a)).
Proof.
  change (match to a with
          | None => idaes_bin_directory cfg
          | Some d => d
          end) with (version_directory cfg (to a)).
  unfold get_extensions.
  destruct (info a).
  { apply only_reports_opens_only_versions, print_build_info_only_reports. }
  cbv zeta.
  destruct (is_some (url a) && is_some _); [repeat constructor |].
  destruct (is_some (url a) || is_some _); [| repeat constructor].
  apply Forall_events_bind; [repeat constructor | intros _].
  apply Forall_events_bind.
  { rewrite try_download_run.
    destruct (download_binaries ext _) as [d | []]; repeat constructor. }
  intros [d |]; [| constructor].
  destruct (no_download a).
  - rewrite for_each_echo. clear. induction d; constructor; [exact I | assumption].
  - apply Forall_events_bind;
      [apply print_extensions_version_opens | intros; constructor].
Qed.

(** ** Further properties of [print_extensions_version] *)

(** X5. An error other than a missing file is not downgraded: when the
    solver version is shown or skipped and opening [version_lib.txt] fails
    with another error, [print_extensions_version] ends with that error and
    prints neither the [Library:] line nor the footer. *)
Theorem print_extensions_version_other_error (cfg : Config)
    (ext : Collaborators) (library_only : bool) (bin_directory : option string)
    (e : exn) :
  let dir := match bin_directory with
             | None => idaes_bin_directory cfg
             | Some d => d
             end in
  (library_only = false ->
   present_or_missing (open_read ext (os_path_join dir "version_solvers.txt"))) ->
  open_read ext (os_path_join dir "version_lib.txt") = Raises e ->
  (forall p, e <> FileNotFoundError p) ->
  result (print_extensions_version cfg ext library_only bin_directory)
  = Raises e
  /\ stdout_of
       (events (print_extensions_version cfg ext library_only bin_directory))
     = (header_lines "Build Versions"
        ++ (if library_only then []
            else [("Solvers:  v"
                   ++ version_entry
                        (open_read ext
                           (os_path_join dir "version_solvers.txt")))%string]))%list.
Proof.
  intros dir Hsolvers Hlib Hother.
  assert (Hread : read_version ext (os_path_join dir "version_lib.txt")
                  = ([FileOpen (os_path_join dir "version_lib.txt") "r"],
                     Raises e)).
  { unfold read_version, call. rewrite Hlib.
    destruct e; try reflexivity. exfalso. apply (Hother path). reflexivity. }
  unfold print_extensions_version. fold dir. rewrite Hread.
  destruct library_only.
  - split; reflexivity.
  - rewrite (read_version_run ext _ (Hsolvers eq_refl)). split; reflexivity.
Qed.

Lemma print_extensions_version_other_error_witness :
  open_read Sample.ext_offline
    (os_path_join (idaes_bin_directory Sample.cfg) "version_lib.txt")
  = Raises (OtherError "permission denied")
  /\ result (print_extensions_version Sample.cfg Sample.ext_offline false None)
     = Raises (OtherError "permission denied")
  /\ stdout_of
       (events (print_extensions_version Sample.cfg Sample.ext_offline false None))
     = (header_lines "Build Versions"
        ++ ["Solvers:  vno version file found"])%list.
Proof.
  split; [reflexivity |].
  apply (print_extensions_version_other_error Sample.cfg Sample.ext_offline
           false None (OtherError "permission denied")).
  - intros _. exact I.
  - reflexivity.
  - intros p H. discriminate H.
Defined.

(** ** Further properties of [hash_extensions] *)

Lemma manifest_order_In (cfg : Config) (pack plat : string) :
  In (pack, plat) (manifest_order cfg)
  <-> In plat (base_platforms cfg)
      /\ (pack = "solvers" \/ pack = "lib"
          \/ exists sp, In (pack, sp) (extra_binaries cfg) /\ In plat sp).
Proof.
  unfold manifest_order. rewrite in_app_iff, !in_flat_map. split.
  - intros [[p [Hp Hin]] | [p [Hp Hin]]].
    + cbn in Hin. destruct Hin as [H | [H | []]]; inversion H; subst;
        split; auto.
    + apply in_map_iff in Hin. destruct Hin as [[pk sp] [Heq Hin]].
      apply filter_In in Hin. destruct Hin as [Hin Hsp].
      cbn [fst snd] in *. inversion Heq; subst.
      split; [exact Hp |]. right. right. exists sp.
      split; [exact Hin | apply str_in_In; exact Hsp].
  - intros [Hp [H | [H | [sp [Hin Hsp]]]]].
    + left. exists plat. subst. split; [exact Hp | left; reflexivity].
    + left. exists plat. subst. split; [exact Hp | right; left; reflexivity].
    + right. exists plat. split; [exact Hp |].
      apply in_map_iff. exists (pack, sp). split; [reflexivity |].
      apply filter_In. split; [exact Hin | apply str_in_In; exact Hsp].
Qed.

Lemma write_loop_hashes (ext : Collaborators) (release : string)
    (path : option string) (arts : list (string * string)) (p : string) :
  In (HashFile p)
     (events (for_each arts
                (fun a => _write_hash ext path
                            (under path (manifest_name release))
                            (fst a) (snd a)))) ->
  exists a, In a arts /\ p = under path (artifact_name (fst a) (snd a)).
Proof.
  induction arts as [| a arts IH]; [intros [] |].
  rewrite write_loop_cons.
  destruct (hash_file_sha256 ext (under path (artifact_name (fst a) (snd a))))
    as [h | e]; cbn [events fst In].
  - intros [H | [H | [H | [H | [H | H]]]]]; try discriminate H.
    + inversion H. exists a. split; [left; reflexivity | reflexivity].
    + destruct (IH H) as [b [Hb Hp]]. exists b. split; [right; exact Hb | exact Hp].
  - intros [H | []]. inversion H.
    exists a. split; [left; reflexivity | reflexivity].
Qed.

(** X6. Every file [hash_extensions] hashes is an artifact
    [idaes-<package>-<platform>.tar.gz] under the path whose platform is in
    the catalog of base platforms and whose package is [solvers], [lib] or
    an extra that declares that platform: a platform an extra declares
    outside the base catalog is never looked for. *)
Theorem hash_extensions_hashes_declared (cfg : Config) (ext : Collaborators)
    (release : string) (path : option string) (p : string) :
  In (HashFile p) (events (hash_extensions cfg ext release path)) ->
  exists pack plat,
    p = under path ("idaes-" ++ pack ++ "-" ++ plat ++ ".tar.gz")
    /\ In plat (base_platforms cfg)
    /\ (pack = "solvers" \/ pack = "lib"
        \/ exists sp, In (pack, sp) (extra_binaries cfg) /\ In plat sp).
Proof.
  rewrite hash_extensions_run. cbv zeta.
  destruct (open_write ext _) as [[] | e]; cbn [events fst In].
  - intros [H | H]; [discriminate H |].
    destruct (write_loop_hashes ext release path _ p H) as [[pack plat] [Hin Hp]].
    exists pack, plat. split; [exact Hp |].
    apply manifest_order_In. exact Hin.
  - intros [H | []]. discriminate H.
Qed.

Lemma hash_extensions_hashes_declared_witness :
  In (HashFile "./idaes-petsc-el8-x86_64.tar.gz")
     (events (hash_extensions Sample.cfg Sample.ext "3.4.2" (Some "./")))
  /\ exists pack plat,
       "./idaes-petsc-el8-x86_64.tar.gz"
       = under (Some "./") ("idaes-" ++ pack ++ "-" ++ plat ++ ".tar.gz")
       /\ In plat (base_platforms Sample.cfg)
       /\ (pack = "solvers" \/ pack = "lib"
           \/ exists sp, In (pack, sp) (extra_binaries Sample.cfg) /\ In plat sp).
Proof.
  assert (Hin : In (HashFile "./idaes-petsc-el8-x86_64.tar.gz")
                   (events (hash_extensions Sample.cfg Sample.ext "3.4.2"
                              (Some "./")))).
  { cbn. do 41 right. left. reflexivity. }
  split; [exact Hin |].
  apply (hash_extensions_hashes_declared Sample.cfg Sample.ext "3.4.2"
           (Some "./") _ Hin).
Defined.

Lemma write_loop_first_failure (ext : Collaborators) (release : string)
    (path : option string) (pre post : list (string * string))
    (a : string * string) (e : exn) :
  (forall b, In b pre ->
     exists h,
       hash_file_sha256 ext (under path (artifact_name (fst b) (snd b)))
       = Returns h) ->
  hash_file_sha256 ext (under path (artifact_name (fst a) (snd a))) = Raises e ->
  let loop := for_each (pre ++ a :: post)%list
                (fun b => _write_hash ext path
                            (under path (manifest_name release))
                            (fst b) (snd b)) in
  result loop = Raises e
  /\ map entry_artifact (written_entries ext path (pre ++ a :: post)%list) = pre
  /\ hashes_of (events loop)
     = map (fun b => under path (artifact_name (fst b) (snd b)))
           (pre ++ [a])%list.
Proof.
  intros Hpre Ha. induction pre as [| b pre IH]; cbv zeta.
  - cbn [app]. rewrite write_loop_cons. cbn [written_entries]. rewrite Ha.
    repeat split.
  - cbn [app]. rewrite write_loop_cons. cbn [written_entries].
    destruct (Hpre b (or_introl eq_refl)) as [h Hh]. rewrite Hh.
    destruct IH as [IH1 [IH2 IH3]];
      [intros c Hc; apply Hpre; right; exact Hc |].
    cbn [result snd events fst map entry_artifact].
    split; [exact IH1 |]. split; [f_equal; exact IH2 |].
    cbn [app map]. rewrite <- IH3. reflexivity.
Qed.

(** X7. Hashing stops at the first artifact that cannot be hashed: when
    the manifest is open, the artifacts before it hash, and its own hashing
    raises, [hash_extensions] ends with that exception; the manifest holds
    the entries of the artifacts before it and nothing more, and no
    artifact after it is hashed. *)
Theorem hash_extensions_first_failure (cfg : Config) (ext : Collaborators)
    (release : string) (path : option string)
    (pre post : list (string * string)) (a : string * string) (e : exn) :
  open_write ext (under path (manifest_name release)) = Returns tt ->
  manifest_order cfg = (pre ++ a :: post)%list ->
  (forall b, In b pre ->
     exists h,
       hash_file_sha256 ext (under path (artifact_name (fst b) (snd b)))
       = Returns h) ->
  hash_file_sha256 ext (under path (artifact_name (fst a) (snd a))) = Raises e ->
  result (hash_extensions cfg ext release path) = Raises e
  /\ map entry_artifact (manifest_entries cfg ext release path) = pre
  /\ writes_to (under path (manifest_name release))
       (events (hash_extensions cfg ext release path))
     = flat_map entry_chunks (manifest_entries cfg ext release path)
  /\ hashes_of (events (hash_extensions cfg ext release path))
     = map (fun b => under path (artifact_name (fst b) (snd b)))
           (pre ++ [a])%list.
Proof.
  intros Hopen Horder Hpre Ha.
  rewrite hash_extensions_run. cbv zeta.
  unfold manifest_entries. rewrite Hopen, Horder.
  destruct (write_loop_first_failure ext release path pre post a e Hpre Ha)
    as [Hres [Hwritten Hhashes]].
  cbn [result snd events fst].
  split; [exact Hres |]. split; [exact Hwritten |].
  split; [| exact Hhashes].
  change (writes_to ?f (FileOpen ?g "w" :: ?t)) with (writes_to f t).
  apply write_loop_writes.
Qed.

Lemma hash_extensions_first_failure_witness :
  hash_file_sha256 Sample.ext_offline "./idaes-lib-el8-x86_64.tar.gz"
  = Raises (FileNotFoundError "./idaes-lib-el8-x86_64.tar.gz")
  /\ result (hash_extensions Sample.cfg Sample.ext_offline "3.4.2" (Some "./"))
     = Raises (FileNotFoundError "./idaes-lib-el8-x86_64.tar.gz")
  /\ map entry_artifact
       (manifest_entries Sample.cfg Sample.ext_offline "3.4.2" (Some "./"))
     = [("solvers", "darwin-aarch64"); ("lib", "darwin-aarch64");
        ("solvers", "el8-x86_64")].
Proof.
  split; [reflexivity |].
  destruct (hash_extensions_first_failure Sample.cfg Sample.ext_offline
              "3.4.2" (Some "./")
              [("solvers", "darwin-aarch64"); ("lib", "darwin-aarch64");
               ("solvers", "el8-x86_64")]
              [("solvers", "ubuntu2004-x86_64"); ("lib", "ubuntu2004-x86_64");
               ("solvers", "windows-x86_64"); ("lib", "windows-x86_64");
               ("petsc", "el8-x86_64"); ("petsc", "ubuntu2004-x86_64")]
              ("lib", "el8-x86_64")
              (FileNotFoundError "./idaes-lib-el8-x86_64.tar.gz"))
    as [Hres [Hwritten _]].
  - reflexivity.
  - reflexivity.
  - intros b Hb. cbn in Hb.
    repeat (destruct Hb as [Hb | Hb]; [subst b; eexists; reflexivity |]).
    destruct Hb.
  - reflexivity.
  - split; [exact Hres | exact Hwritten].
Defined.

(** ** Further properties of [bin_platform] and [print_build_info] *)


(** [print_build_info] up to the alias tables. *)
Lemma print_build_info_split (cfg : Config) (ext : Collaborators)
    (fd : FileDownloader ext) (ab : ArchBits ext) :
  _get_file_downloader ext false None = Returns (fd, ab) ->
  let rest :=
    for_each [("Platform", binary_distro_map cfg);
              ("Architecture", binary_arch_map cfg)]
             (fun nd => print_aliases (fst nd) (snd nd)) ;;
    print (nl ++ "Current system information:") ;;
    ap <- call (GetArchAndPlatform "auto")
               (_get_arch_and_platform ext fd "auto") ;;
    print_system_info cfg (snd ap) (machine ext) ;;
    print_footer 65 in
  print_build_info cfg ext
  = ((GetFileDownloader false None
      :: map Stdout (build_list_lines cfg) ++ events rest)%list,
     result rest).
Proof.
  intros Hfd rest. unfold print_build_info. rewrite Hfd. unfold call at 1.
  rewrite bind_returns. cbv beta. cbn [fst].
  rewrite (seq_returns (print_header _ _)) by reflexivity.
  cbn [events result fst snd].
  rewrite (seq_returns (print _)) by reflexivity.
  cbn [events result fst snd].
  rewrite (seq_returns (for_each (base_platforms cfg) _))
    by apply for_each_print_returns.
  cbn [events result fst snd].
  change (for_each (base_platforms cfg) (fun build => print ("   " ++ build)))
    with (for_each (base_platforms cfg) (fun build => echo ("   " ++ build))).
  rewrite for_each_echo. cbn [fst].
  unfold build_list_lines. rewrite map_app. cbn [map]. rewrite map_map.
  rewrite <- app_assoc. reflexivity.
Qed.

(** X9. An empty table of distribution aliases makes [print_build_info]
    fail: after the list of builds and the heading of the alias table the
    command ends with [ValueError] (the [max] of no lengths); the current
    system is never probed nor reported. *)
Theorem print_build_info_empty_aliases (cfg : Config) (ext : Collaborators)
    (fd : FileDownloader ext) (ab : ArchBits ext) :
  _get_file_downloader ext false None = Returns (fd, ab) ->
  binary_distro_map cfg = [] ->
  print_build_info cfg ext
  = (GetFileDownloader false None
     :: map Stdout (build_list_lines cfg
                    ++ [(nl ++ "Platform aliases:")%string])%list,
     Raises ValueError).
Proof.
  intros Hfd Hmap.
  rewrite (print_build_info_split cfg ext fd ab Hfd). cbv zeta.
  rewrite Hmap. cbn [for_each fst snd].
  assert (Halias : print_aliases "Platform" []
                   = ([Stdout (nl ++ "Platform aliases:")], Raises ValueError))
    by reflexivity.
  rewrite Halias, !bind_raises. cbn [events result fst snd].
  rewrite map_app. reflexivity.
Qed.

Lemma print_build_info_empty_aliases_witness :
  binary_distro_map Sample.cfg2 = []
  /\ result (print_build_info Sample.cfg2 Sample.ext2) = Raises ValueError
  /\ stdout_of (events (print_build_info Sample.cfg2 Sample.ext2))
     = (build_list_lines Sample.cfg2 ++ [(nl ++ "Platform aliases:")%string])%list.
Proof.
  split; [reflexivity |].
  rewrite (print_build_info_empty_aliases Sample.cfg2 Sample.ext2 tt tt
             eq_refl eq_refl).
  split; reflexivity.
Defined.

(** X10. With [--info] a failure of the platform probe is not caught: when
    [_get_arch_and_platform] raises (an [UnsupportedPlatformError], say),
    [get_extensions] ends with that exception after the alias tables,
    without the report on the current system. *)
Theorem get_extensions_info_probe_error (cfg : Config) (ext : Collaborators)
    (a : get_extensions_args) (fd : FileDownloader ext) (ab : ArchBits ext)
    (e : exn) :
  info a = true ->
  _get_file_downloader ext false None = Returns (fd, ab) ->
  binary_distro_map cfg <> [] ->
  binary_arch_map cfg <> [] ->
  _get_arch_and_platform ext fd "auto" = Raises e ->
  result (get_extensions cfg ext a) = Raises e
  /\ exists t,
       events (get_extensions cfg ext a)
       = (t ++ [Stdout (nl ++ "Current system information:");
                GetArchAndPlatform "auto"])%list.
Proof.
  intros Hinfo Hfd Hdistro Harch Hprobe.
  unfold get_extensions. rewrite Hinfo.
  rewrite (print_build_info_split cfg ext fd ab Hfd). cbv zeta.
  rewrite (seq_returns (for_each [_; _] _)).
  2: { cbn [for_each fst snd].
       rewrite (seq_returns (print_aliases _ _))
         by (apply print_aliases_returns; exact Hdistro).
       cbn [result snd].
       rewrite (seq_returns (print_aliases _ _))
         by (apply print_aliases_returns; exact Harch).
       reflexivity. }
  rewrite Hprobe. cbn [events result fst snd].
  split; [reflexivity |].
  exists (GetFileDownloader false None
          :: map Stdout (build_list_lines cfg)
          ++ events (for_each [("Platform", binary_distro_map cfg);
                               ("Architecture", binary_arch_map cfg)]
                       (fun nd => print_aliases (fst nd) (snd nd))))%list.
  unfold print, emit, call.
  rewrite bind_returns, bind_raises. cbn [events fst app].
  rewrite <- app_assoc. reflexivity.
Qed.

Lemma get_extensions_info_probe_error_witness :
  info (Sample.args None None true) = true
  /\ result (get_extensions Sample.cfg Sample.ext_unknown
               (Sample.args None None true))
     = Raises (UnsupportedPlatformError "no platform").
Proof.
  split; [reflexivity |].
  apply (get_extensions_info_probe_error Sample.cfg Sample.ext_unknown
           (Sample.args None None true) tt tt
           (UnsupportedPlatformError "no platform"));
    try reflexivity; discriminate.
Defined.

(** ** The alias tables of [print_build_info] *)

Lemma rmap_get_append (rmap : list (string * list string)) (v k x : string) :
  rmap_get (rmap_append rmap v k) x
  = if v =? x then (rmap_get rmap v ++ [k])%list else rmap_get rmap x.
Proof.
  induction rmap as [| [v' ks] rest IH]; cbn [rmap_append rmap_get].
  - destruct (v =? x); reflexivity.
  - destruct (String.eqb_spec v' v) as [Hv | Hv]; cbn [rmap_get].
    + subst v'. rewrite ?String.eqb_refl. destruct (v =? x); reflexivity.
    + rewrite IH. destruct (String.eqb_spec v' x) as [Hx | Hx];
        [| reflexivity].
      subst x. destruct (String.eqb_spec v v'); [congruence | reflexivity].
Qed.

Lemma rmap_append_keys (rmap : list (string * list string)) (v k : string) :
  map fst (rmap_append rmap v k)
  = if str_in v (map fst rmap) then map fst rmap
    else (map fst rmap ++ [v])%list.
Proof.
  induction rmap as [| [v' ks] rest IH]; [reflexivity |].
  cbn [rmap_append map fst str_in existsb].
  rewrite (String.eqb_sym v v').
  destruct (v' =? v); cbn [map fst orb]; [reflexivity |].
  rewrite IH. unfold str_in. destruct (existsb _ _); reflexivity.
Qed.

Lemma alias_fold_get (data : list (string * string))
    (acc : list (string * list string)) (k v : string) :
  In k (rmap_get (fold_left (fun rmap kv => rmap_append rmap (snd kv) (fst kv))
                            data acc) v)
  <-> In k (rmap_get acc v) \/ In (k, v) data.
Proof.
  revert acc. induction data as [| [k' v'] data IH]; intros acc.
  - cbn. tauto.
  - cbn [fold_left fst snd]. rewrite IH, rmap_get_append.
    destruct (String.eqb_spec v' v) as [Hv | Hv].
    + subst v'. rewrite in_app_iff. cbn [In]. split.
      * intros [[H | [H | []]] | H]; auto. subst. right. left. reflexivity.
      * intros [H | [H | H]]; auto. inversion H. auto.
    + cbn [In]. split.
      * intros [H | H]; auto.
      * intros [H | [H | H]]; auto. inversion H. congruence.
Qed.

Lemma alias_fold_keys (data : list (string * string))
    (acc : list (string * list string)) :
  NoDup (map fst acc) ->
  NoDup (map fst (fold_left (fun rmap kv => rmap_append rmap (snd kv) (fst kv))
                            data acc))
  /\ forall v,
       In v (map fst (fold_left
                        (fun rmap kv => rmap_append rmap (snd kv) (fst kv))
                        data acc))
       <-> In v (map fst acc) \/ In v (map snd data).
Proof.
  revert acc. induction data as [| [k' v'] data IH]; intros acc Hacc.
  - cbn. split; [exact Hacc | tauto].
  - cbn [fold_left fst snd map].
    assert (Hkeys := rmap_append_keys acc v' k').
    pose proof (str_in_In v' (map fst acc)) as Hin.
    destruct (str_in v' (map fst acc)).
    + destruct (IH (rmap_append acc v' k')) as [Hnd Hiff];
        [rewrite Hkeys; exact Hacc |].
      split; [exact Hnd |]. intros v. rewrite Hiff, Hkeys. cbn [In].
      split; [tauto |]. intros [H | [H | H]]; auto.
      subst. left. apply Hin. reflexivity.
    + destruct (IH (rmap_append acc v' k')) as [Hnd Hiff].
      { rewrite Hkeys. apply NoDup_app; [exact Hacc | repeat constructor; intros [] |].
        intros x Hx [Hx' | []]. subst x.
        apply Hin in Hx. discriminate Hx. }
      split; [exact Hnd |]. intros v. rewrite Hiff, Hkeys, in_app_iff.
      cbn [In]. tauto.
Qed.

(** X11. The alias table groups the map by canonical name without losing
    or inventing anything: [k] is listed among the aliases of [v] exactly
    when the map sends [k] to [v]. *)
Theorem alias_table_lookup (data : list (string * string)) (k v : string) :
  In k (rmap_get (alias_table data) v) <-> In (k, v) data.
Proof.
  unfold alias_table. rewrite alias_fold_get. cbn [rmap_get In]. tauto.
Qed.

(** X12. Every canonical name has one row in the alias table: the keys of
    the table are distinct and are exactly the values of the map. *)
Theorem alias_table_keys (data : list (string * string)) :
  NoDup (map fst (alias_table data))
  /\ forall v, In v (map fst (alias_table data)) <-> exists k, In (k, v) data.
Proof.
  unfold alias_table.
  destruct (alias_fold_keys data [] (NoDup_nil _)) as [Hnd Hiff].
  split; [exact Hnd |]. intros v. rewrite Hiff. cbn [map In]. split.
  - intros [[] | H]. apply in_map_iff in H. destruct H as [[k v'] [Heq H]].
    cbn [snd] in Heq. subst. exists k. exact H.
  - intros [k H]. right. apply in_map_iff. exists (k, v). split; [reflexivity | exact H].
Qed.

Lemma length_append (a b : string) :
  String.length (a ++ b) = String.length a + String.length b.
Proof. induction a as [| c a IH]; cbn; [reflexivity | rewrite IH; reflexivity]. Qed.

Lemma length_spaces (n : nat) : String.length (str_repeat " " n) = n.
Proof. induction n as [| n IH]; cbn; [reflexivity | rewrite IH; reflexivity]. Qed.

Lemma length_rjust (w : nat) (s : string) :
  String.length s <= w -> String.length (rjust w s) = w.
Proof.
  intros Hle. unfold rjust. rewrite length_append, length_spaces. lia.
Qed.

Lemma fold_max_bounds (rest : list string) (init : nat) :
  let w := fold_left (fun m y => Nat.max m (String.length y)) rest init in
  init <= w
  /\ (forall y, In y rest -> String.length y <= w)
  /\ (w = init \/ exists y, In y rest /\ String.length y = w).
Proof.
  revert init. induction rest as [| y rest IH]; intros init; cbv zeta.
  - cbn. repeat split; [lia | intros y [] | left; reflexivity].
  - cbn [fold_left].
    destruct (IH (Nat.max init (String.length y))) as [H1 [H2 H3]].
    split; [lia |]. split.
    + intros z [Hz | Hz]; [subst z; lia | apply H2; exact Hz].
    + destruct H3 as [H3 | [z [Hz H3]]].
      * destruct (Nat.max_spec init (String.length y)) as [[_ Hm] | [_ Hm]].
        -- right. exists y. split; [left; reflexivity | lia].
        -- left. lia.
      * right. exists z. split; [right; exact Hz | exact H3].
Qed.

Lemma sorted_In (xs : list string) (x : string) :
  In x (sorted xs) <-> In x xs.
Proof.
  unfold sorted. split; intros H.
  - apply (Permutation.Permutation_in x
             (Permutation.Permutation_sym (StringSort.Permuted_sort xs)) H).
  - apply (Permutation.Permutation_in x (StringSort.Permuted_sort xs) H).
Qed.

(** X13. The alias listing is aligned.  For a non-empty map
    [print_aliases] prints its heading and one row per canonical name, and
    every name is right-justified to the same width, the length of the
    longest canonical name, so that at least one name is not padded. *)
Theorem print_aliases_aligned (name : string) (data : list (string * string)) :
  data <> [] ->
  exists w,
    print_aliases name data
    = (Stdout (nl ++ name ++ " aliases:")
       :: map (fun n =>
                 Stdout ("    " ++ rjust w n ++ ": "
                         ++ join ", " (sorted (rmap_get (alias_table data) n))))
              (sorted (map fst (alias_table data))),
       Returns tt)
    /\ (forall n, In n (sorted (map fst (alias_table data))) ->
          String.length (rjust w n) = w)
    /\ (exists n, In n (map fst (alias_table data)) /\ String.length n = w).
Proof.
  intros Hdata.
  pose proof (alias_table_nonempty data Hdata) as Hne.
  unfold print_aliases.
  destruct (map fst (alias_table data)) as [| x rest] eqn:Hkeys.
  { destruct (alias_table data); [congruence | discriminate Hkeys]. }
  set (w := fold_left (fun m y => Nat.max m (String.length y)) rest
                      (String.length x)).
  destruct (fold_max_bounds rest (String.length x)) as [Hinit [Hrest Htight]].
  fold w in Hinit, Hrest, Htight.
  exists w. split; [| split].
  - cbn [max_len]. fold w. rewrite bind_ret_l.
    change (for_each ?l (fun n => print (?g n)))
      with (for_each l (fun n => echo (g n))).
    rewrite for_each_echo. reflexivity.
  - intros n Hn. apply length_rjust. apply (proj1 (sorted_In _ _)) in Hn.
    destruct Hn as [Hn | Hn]; [subst n; exact Hinit | apply Hrest; exact Hn].
  - destruct Htight as [Hw | [y [Hy Hw]]].
    + exists x. split; [left; reflexivity | symmetry; exact Hw].
    + exists y. split; [right; exact Hy | exact Hw].
Qed.

Lemma print_aliases_aligned_witness :
  Sample.distro_map <> []
  /\ exists w,
       print_aliases "Platform" Sample.distro_map
       = (Stdout (nl ++ "Platform aliases:")
          :: map (fun n =>
                    Stdout ("    " ++ rjust w n ++ ": "
                            ++ join ", "
                                 (sorted (rmap_get (alias_table Sample.distro_map) n))))
                 (sorted (map fst (alias_table Sample.distro_map))),
          Returns tt)
       /\ (forall n, In n (sorted (map fst (alias_table Sample.distro_map))) ->
             String.length (rjust w n) = w)
       /\ (exists n, In n (map fst (alias_table Sample.distro_map))
                     /\ String.length n = w).
Proof.
  split; [discriminate |].
  apply (print_aliases_aligned "Platform" Sample.distro_map).
  discriminate.
Defined.

(** ** The version shown by [print_extensions_version] *)

Lemma readline_cons (c : ascii) (r : string) :
  Ascii.eqb c nl_char = false -> Ascii.eqb c cr_char = false ->
  readline (String c r) = String c (readline r).
Proof.
  intros Hnl Hcr. unfold readline. cbn [readlines]. rewrite Hnl, Hcr.
  destruct (readlines r); reflexivity.
Qed.

Lemma readline_first_line (body rest : string) :
  no_line_break body = true ->
  readline (body ++ nl ++ rest) = body ++ nl.
Proof.
  induction body as [| c b IH]; intros Hbody; [reflexivity |].
  cbn [no_line_break] in Hbody.
  apply andb_prop in Hbody. destruct Hbody as [Hc Hb].
  apply andb_prop in Hc. destruct Hc as [Hnl Hcr].
  apply negb_true_iff in Hnl, Hcr.
  cbn [append]. rewrite (readline_cons c _ Hnl Hcr), (IH Hb). reflexivity.
Qed.

Lemma readline_shape (s : string) :
  exists body,
    no_line_break body = true
    /\ (readline s = body \/ readline s = body ++ nl).
Proof.
  induction s as [| c r [body [Hbody IH]]].
  - exists "". split; [reflexivity | left; reflexivity].
  - destruct (Ascii.eqb c nl_char) eqn:Hnl.
    { exists "". split; [reflexivity | right].
      unfold readline. cbn [readlines]. rewrite Hnl. reflexivity. }
    destruct (Ascii.eqb c cr_char) eqn:Hcr.
    { exists "". split; [reflexivity | right].
      unfold readline. cbn [readlines]. rewrite Hnl, Hcr.
      destruct r as [| c' r']; [reflexivity |].
      destruct (Ascii.eqb c' nl_char); reflexivity. }
    exists (String c body). split.
    + cbn [no_line_break]. rewrite Hnl, Hcr, Hbody. reflexivity.
    + rewrite (readline_cons c r Hnl Hcr).
      destruct IH as [IH | IH]; rewrite IH; [left | right]; reflexivity.
Qed.

Lemma rstrip_nl (x : string) : rstrip (x ++ nl) = rstrip x.
Proof.
  induction x as [| c x IH]; [reflexivity |].
  cbn [append rstrip]. rewrite IH. reflexivity.
Qed.

Lemma lstrip_nl (x : string) :
  lstrip (x ++ nl) = match lstrip x with
                     | "" => ""
                     | String c r => String c r ++ nl
                     end.
Proof.
  induction x as [| c x IH]; [reflexivity |].
  cbn [append lstrip]. destruct (is_space c); [exact IH | reflexivity].
Qed.

Lemma strip_nl (x : string) : strip (x ++ nl) = strip x.
Proof.
  unfold strip. rewrite lstrip_nl.
  destruct (lstrip x) as [| c r]; [reflexivity | apply rstrip_nl].
Qed.

Lemma lstrip_no_line_break (x : string) :
  no_line_break x = true -> no_line_break (lstrip x) = true.
Proof.
  induction x as [| c x IH]; intros Hx; [reflexivity |].
  cbn [lstrip]. destruct (is_space c); [| exact Hx].
  cbn [no_line_break] in Hx. apply andb_prop in Hx. apply IH, Hx.
Qed.

Lemma rstrip_no_line_break (x : string) :
  no_line_break x = true -> no_line_break (rstrip x) = true.
Proof.
  induction x as [| c x IH]; intros Hx; [reflexivity |].
  cbn [no_line_break] in Hx. apply andb_prop in Hx. destruct Hx as [Hc Hx].
  cbn [rstrip]. specialize (IH Hx).
  destruct (rstrip x) as [| c' r'].
  - destruct (is_space c); [reflexivity |].
    cbn [no_line_break]. rewrite Hc. reflexivity.
  - cbn [no_line_break] in *. rewrite Hc, IH. reflexivity.
Qed.

(** ** The report after a download *)

Lemma print_extensions_version_run (cfg : Config) (ext : Collaborators)
    (library_only : bool) (bin_directory : option string) :
  let dir := version_directory cfg bin_directory in
  let solvers := os_path_join dir "version_solvers.txt" in
  let lib := os_path_join dir "version_lib.txt" in
  (library_only = false -> present_or_missing (open_read ext solvers)) ->
  present_or_missing (open_read ext lib) ->
  print_extensions_version cfg ext library_only bin_directory
  = ((map Stdout (header_lines "Build Versions")
      ++ (if library_only then []
          else [FileOpen solvers "r";
                Stdout ("Solvers:  v" ++ version_entry (open_read ext solvers))])
      ++ FileOpen lib "r"
      :: Stdout ("Library:  v" ++ version_entry (open_read ext lib))
      :: map Stdout footer_lines)%list,
     Returns 0%Z).
Proof.
  intros dir solvers lib Hsolvers Hlib.
  unfold print_extensions_version. fold (version_directory cfg bin_directory).
  fold dir. fold solvers lib.
  rewrite (read_version_run ext lib Hlib).
  destruct library_only.
  - reflexivity.
  - rewrite (read_version_run ext solvers (Hsolvers eq_refl)). reflexivity.
Qed.

(** X16. The successful installation: when the call of
    [download_binaries] returns, the run is not a dry run, and each version
    file of the install directory is readable or missing, [get_extensions]
    prints [Getting files...], [Done] and the version report of that
    directory (the [--to] location when given) and returns normally. *)
Theorem get_extensions_install_report (cfg : Config) (ext : Collaborators)
    (a : get_extensions_args) (args : download_args)
    (d : list (string * string)) :
  let dir := match to a with
             | None => idaes_bin_directory cfg
             | Some d => d
             end in
  let solvers := open_read ext (os_path_join dir "version_solvers.txt") in
  let lib := open_read ext (os_path_join dir "version_lib.txt") in
  In (DownloadBinaries args) (events (get_extensions cfg ext a)) ->
  download_binaries ext args = Returns d ->
  no_download a = false ->
  (library_only a = false -> present_or_missing solvers) ->
  present_or_missing lib ->
  result (get_extensions cfg ext a) = Returns tt
  /\ stdout_of (events (get_extensions cfg ext a))
     = ("Getting files..." :: "Done"
        :: header_lines "Build Versions"
        ++ (if library_only a then []
            else [("Solvers:  v" ++ version_entry solvers)%string])
        ++ [("Library:  v" ++ version_entry lib)%string]
        ++ footer_lines)%list.
Proof.
  intros dir solvers lib Hin Hdown Hdry Hsolvers Hlib.
  destruct (get_extensions_download_inv cfg ext a args Hin) as [_ Hrun].
  rewrite Hrun, echo_then, try_download_run, Hdown, bind_returns.
  unfold after_download. rewrite Hdry.
  rewrite (print_extensions_version_run cfg ext (library_only a) (to a)
             Hsolvers Hlib).
  fold (version_directory cfg (to a)) in dir. fold dir. fold solvers lib.
  destruct (library_only a); split; reflexivity.
Qed.

Lemma get_extensions_install_report_witness :
  In (DownloadBinaries
        (download_args_of (Sample.args (Some "3.4.2") None false) (Some "3.4.2")))
     (events (get_extensions Sample.cfg Sample.ext
                (Sample.args (Some "3.4.2") None false)))
  /\ result (get_extensions Sample.cfg Sample.ext
               (Sample.args (Some "3.4.2") None false))
     = Returns tt
  /\ stdout_of (events (get_extensions Sample.cfg Sample.ext
                         (Sample.args (Some "3.4.2") None false)))
     = ("Getting files..." :: "Done"
        :: header_lines "Build Versions"
        ++ ["Solvers:  vno version file found";
            "Library:  vno version file found"]
        ++ footer_lines)%list.
Proof.
  assert (Hin : In (DownloadBinaries
                      (download_args_of (Sample.args (Some "3.4.2") None false)
                                        (Some "3.4.2")))
                   (events (get_extensions Sample.cfg Sample.ext
                              (Sample.args (Some "3.4.2") None false))))
    by (right; left; reflexivity).
  split; [exact Hin |].
  apply (get_extensions_install_report Sample.cfg Sample.ext
           (Sample.args (Some "3.4.2") None false) _
           [("lib", "/tmp/idaes-lib-el8-x86_64.tar.gz")] Hin).
  - reflexivity.
  - reflexivity.
  - intros _. exact I.
  - exact I.
Defined.

(** ** The report of [--info] *)








(** ** The entries of the version report *)

Lemma no_line_break_app (a b : string) :
  no_line_break (a ++ b) = no_line_break a && no_line_break b.
Proof.
  induction a as [| c a IH]; [reflexivity |].
  cbn [append no_line_break]. rewrite IH, andb_assoc. reflexivity.
Qed.

Lemma version_entry_no_line_break (o : outcome string) :
  no_line_break (version_entry o) = true.
Proof.
  destruct o as [f | e]; [| reflexivity].
  unfold version_entry.
  destruct (readline_shape f) as [body [Hbody [Hline | Hline]]];
    rewrite Hline, ?strip_nl; unfold strip;
    apply rstrip_no_line_break, lstrip_no_line_break, Hbody.
Qed.

Lemma version_entry_line (line rest : string) :
  no_line_break line = true ->
  version_entry (Returns (line ++ nl ++ rest)) = strip line.
Proof.
  intros Hline. unfold version_entry.
  rewrite (readline_first_line line rest Hline). apply strip_nl.
Qed.

(** X14. Only the first line of a version file counts.  When each version
    file that is read starts with a line ended by a line feed,
    [print_extensions_version] returns 0 and prints, between header and
    footer, [Solvers:  v] (unless [library_only]) and [Library:  v], each
    followed by the first line of its file without the surrounding white
    space; what follows the first line is not shown. *)
Theorem print_extensions_version_first_lines (cfg : Config)
    (ext : Collaborators) (library_only : bool) (bin_directory : option string)
    (sline srest lline lrest : string) :
  let dir := match bin_directory with
             | None => idaes_bin_directory cfg
             | Some d => d
             end in
  (library_only = false ->
   open_read ext (os_path_join dir "version_solvers.txt")
   = Returns (sline ++ nl ++ srest)) ->
  open_read ext (os_path_join dir "version_lib.txt")
  = Returns (lline ++ nl ++ lrest) ->
  no_line_break sline = true ->
  no_line_break lline = true ->
  result (print_extensions_version cfg ext library_only bin_directory)
  = Returns 0%Z
  /\ stdout_of
       (events (print_extensions_version cfg ext library_only bin_directory))
     = (header_lines "Build Versions"
        ++ (if library_only then []
            else [("Solvers:  v" ++ strip sline)%string])
        ++ [("Library:  v" ++ strip lline)%string]
        ++ footer_lines)%list.
Proof.
  intros dir Hsolvers Hlib Hsline Hlline.
  assert (Hlib' : present_or_missing
                    (open_read ext (os_path_join dir "version_lib.txt")))
    by (rewrite Hlib; exact I).
  assert (Hsolvers' : library_only = false ->
                      present_or_missing
                        (open_read ext (os_path_join dir "version_solvers.txt")))
    by (intros H; rewrite (Hsolvers H); exact I).
  rewrite (print_extensions_version_run cfg ext library_only bin_directory
             Hsolvers' Hlib').
  fold (version_directory cfg bin_directory) in dir. fold dir.
  rewrite Hlib, (version_entry_line lline lrest Hlline).
  destruct library_only.
  - split; reflexivity.
  - rewrite (Hsolvers eq_refl), (version_entry_line sline srest Hsline).
    split; reflexivity.
Qed.

Lemma print_extensions_version_first_lines_witness :
  open_read Sample.ext_installed
    (os_path_join (idaes_bin_directory Sample.cfg) "version_solvers.txt")
  = Returns (String (ascii_of_nat 160) " 3.4.2 " ++ nl ++ "build 7" ++ nl)
  /\ result (print_extensions_version Sample.cfg Sample.ext_installed false None)
     = Returns 0%Z
  /\ stdout_of
       (events (print_extensions_version Sample.cfg Sample.ext_installed
                  false None))
     = (header_lines "Build Versions"
        ++ ["Solvers:  v3.4.2"; "Library:  v3.4.1"]
        ++ footer_lines)%list.
Proof.
  split; [reflexivity |].
  apply (print_extensions_version_first_lines Sample.cfg Sample.ext_installed
           false None (String (ascii_of_nat 160) " 3.4.2 ") ("build 7" ++ nl)
           "3.4.1" "");
    reflexivity.
Defined.

(** X15. Each entry of the version report stays on one line.  When each
    version file is readable or missing, [print_extensions_version] prints
    six lines with [library_only] and seven without, and no printed line
    contains a line feed or a carriage return, whatever the files hold. *)
Theorem print_extensions_version_one_line_each (cfg : Config)
    (ext : Collaborators) (library_only : bool) (bin_directory : option string) :
  let dir := match bin_directory with
             | None => idaes_bin_directory cfg
             | Some d => d
             end in
  (library_only = false ->
   present_or_missing
     (open_read ext (os_path_join dir "version_solvers.txt"))) ->
  present_or_missing (open_read ext (os_path_join dir "version_lib.txt")) ->
  List.length
    (stdout_of
       (events (print_extensions_version cfg ext library_only bin_directory)))
  = (if library_only then 6 else 7)
  /\ Forall (fun line => no_line_break line = true)
       (stdout_of
          (events (print_extensions_version cfg ext library_only bin_directory))).
Proof.
  intros dir Hsolvers Hlib.
  rewrite (print_extensions_version_run cfg ext library_only bin_directory
             Hsolvers Hlib).
  fold (version_directory cfg bin_directory) in dir. fold dir.
  assert (Hentry : forall label o,
            no_line_break label = true ->
            no_line_break (label ++ version_entry o) = true).
  { intros label o Hlabel.
    rewrite no_line_break_app, Hlabel, version_entry_no_line_break.
    reflexivity. }
  destruct library_only; (split; [reflexivity |]);
    cbn [events fst header_lines footer_lines map app stdout_of flat_map];
    repeat (constructor; [first [reflexivity | apply Hentry; reflexivity] |]);
    constructor.
Qed.

Lemma print_extensions_version_one_line_each_witness :
  present_or_missing
    (open_read Sample.ext_installed
       (os_path_join (idaes_bin_directory Sample.cfg) "version_lib.txt"))
  /\ List.length
       (stdout_of
          (events (print_extensions_version Sample.cfg Sample.ext_installed
                     false None)))
     = 7
  /\ Forall (fun line => no_line_break line = true)
       (stdout_of
          (events (print_extensions_version Sample.cfg Sample.ext_installed
                     false None))).
Proof.
  split; [exact I |].
  apply (print_extensions_version_one_line_each Sample.cfg Sample.ext_installed
           false None).
  - intros _. exact I.
  - exact I.
Defined.
